(** * Airline review dashboards: the data-preparation pipeline

    A shallow embedding of the pipeline shared by [airline_dashboard.py]
    (module [Basic] below) and [advanced_airline_dashboard.py] (module
    [Advanced]): route parsing, satisfaction segments, keyword themes, the
    sidebar filters and the grouped summary tables.

    Python values are modelled as follows.
    - [str] is [string]; a character is read as the code point of the same
      number, so the model covers text over U+0000..U+00FF, where
      [str.lower] and [str.isspace] are the finite tables written below.
    - A pandas cell that may be missing is an [option]; a numeric cell is a
      [number] (a float: finite, infinite or NaN, NaN being pandas' missing
      number).
    - A call that may raise is a [result]. *)

From Stdlib Require Import String Ascii List Bool NArith ZArith QArith Qround Lia Lqa.
From Stdlib Require Import Permutation Sorted.
Import ListNotations.

Local Open Scope string_scope.
Local Open Scope list_scope.

(** ** Python results *)

Inductive exn : Type :=
| ValueError.

Inductive result (A : Type) : Type :=
| Return (a : A)
| Raise (e : exn).

Arguments Return {A} a.
Arguments Raise {A} e.

Definition bind {A B : Type} (m : result A) (k : A -> result B) : result B :=
  match m with
  | Return a => k a
  | Raise e => Raise e
  end.

Notation "' p <- m ;; k" := (bind m (fun p => k))
  (at level 61, p pattern, m at next level, right associativity).

(** ** Python strings *)

Module PyStr.

(** [str.isspace] on one character of U+0000..U+00FF. *)
Definition isspace (c : ascii) : bool :=
  match N_of_ascii c with
  | 9 | 10 | 11 | 12 | 13 | 28 | 29 | 30 | 31 | 32 | 133 | 160 => true
  | _ => false
  end%N.

(** [str.lower] on one character of U+0000..U+00FF: A-Z, and the Latin-1
    capitals U+00C0..U+00DE except the multiplication sign U+00D7. *)
Definition lower_char (c : ascii) : ascii :=
  let n := N_of_ascii c in
  if ((65 <=? n) && (n <=? 90) ||
      (192 <=? n) && (n <=? 222) && negb (n =? 215))%N
  then ascii_of_N (n + 32)
  else c.

Fixpoint lower (s : string) : string :=
  match s with
  | EmptyString => EmptyString
  | String c s' => String (lower_char c) (lower s')
  end.

Fixpoint lstrip (s : string) : string :=
  match s with
  | EmptyString => EmptyString
  | String c s' => if isspace c then lstrip s' else s
  end.

Fixpoint rstrip (s : string) : string :=
  match s with
  | EmptyString => EmptyString
  | String c s' =>
      match rstrip s' with
      | EmptyString => if isspace c then EmptyString else String c EmptyString
      | r => String c r
      end
  end.

(** [s.strip()] *)
Definition strip (s : string) : string := rstrip (lstrip s).

(** [strip_prefix p s] is the rest of [s] after its prefix [p], if [p] is one. *)
Fixpoint strip_prefix (p s : string) : option string :=
  match p with
  | EmptyString => Some s
  | String a p' =>
      match s with
      | EmptyString => None
      | String b s' => if Ascii.eqb a b then strip_prefix p' s' else None
      end
  end.

(** [sub in s] *)
Fixpoint contains (sub s : string) : bool :=
  match strip_prefix sub s with
  | Some _ => true
  | None =>
      match s with
      | EmptyString => false
      | String _ s' => contains sub s'
      end
  end.

(** The text before and after the first occurrence of [sep] in [s]. *)
Fixpoint partition (sep s : string) : option (string * string) :=
  match strip_prefix sep s with
  | Some rest => Some (EmptyString, rest)
  | None =>
      match s with
      | EmptyString => None
      | String c s' =>
          match partition sep s' with
          | Some (a, b) => Some (String c a, b)
          | None => None
          end
      end
  end.

(** [s.split(sep, 1)] for a non-empty [sep]. *)
Definition split1 (sep s : string) : list string :=
  match partition sep s with
  | Some (a, b) => [a; b]
  | None => [s]
  end.

(** [s.count(sub)]: occurrences found left to right, the scan resuming after
    the end of each one; [skip] characters of a found occurrence are still to
    be passed. *)
Fixpoint count_from (sub s : string) (skip : nat) : Z :=
  match s with
  | EmptyString => 0
  | String _ s' =>
      match skip with
      | S k => count_from sub s' k
      | O =>
          match strip_prefix sub s with
          | Some _ => 1 + count_from sub s' (String.length sub - 1)
          | None => count_from sub s' 0
          end
      end
  end%Z.

Definition count (sub s : string) : Z :=
  match sub with
  | EmptyString => Z.of_nat (String.length s) + 1
  | _ => count_from sub s 0
  end%Z.

(** [s[n:]] *)
Fixpoint drop (n : nat) (s : string) : string :=
  match n, s with
  | O, _ => s
  | S _, EmptyString => EmptyString
  | S n', String _ s' => drop n' s'
  end.

(** [sep.join(l)] *)
Definition join (sep : string) (l : list string) : string := String.concat sep l.

End PyStr.

(** [a, b = l]: unpacking a list into two names. *)
Definition unpack2 (l : list string) : result (string * string) :=
  match l with
  | [a; b] => Return (a, b)
  | _ => Raise ValueError
  end.

(** ** Route parser

    [parse_route], local to [load_and_process_data]; the two dashboards hold
    the same text. [None] is a missing cell ([pd.isna]). *)

Definition route_triple : Type := option string * option string * option string.

Definition parse_route (route_str : option string) : result route_triple :=
  match route_str with
  | None => Return (None, None, None)
  | Some s =>
      let route_str := PyStr.strip s in
      if PyStr.contains " via " (PyStr.lower route_str) then
        '(main_route, via_part) <- unpack2 (PyStr.split1 " via " route_str) ;;
        let via_city := PyStr.strip via_part in
        if PyStr.contains " to " (PyStr.lower main_route) then
          '(origin, destination) <- unpack2 (PyStr.split1 " to " main_route) ;;
          Return (Some (PyStr.strip origin), Some (PyStr.strip destination),
                  Some via_city)
        else
          Return (Some route_str, None, None)
      else if PyStr.contains " to " (PyStr.lower route_str) then
        let parts := PyStr.split1 " to " route_str in
        if (List.length parts =? 2)%nat then
          Return (Some (PyStr.strip (nth 0 parts "")),
                  Some (PyStr.strip (nth 1 parts "")), None)
        else
          Return (Some route_str, None, None)
      else
        Return (Some route_str, None, None)
  end.

(** ** Numbers

    A numeric cell is a float: a finite value, an infinity, or NaN (pandas'
    missing number). Every comparison of the pipeline is against a constant
    or another cell, so a finite float is kept as the rational it denotes. *)

Inductive number : Type :=
| Fin (q : Q)
| PosInf
| NegInf
| NaN.

(** [a <= b] on floats: false as soon as one side is NaN. *)
Definition num_le (a b : number) : bool :=
  match a, b with
  | NaN, _ | _, NaN => false
  | NegInf, _ => true
  | _, PosInf => true
  | Fin x, Fin y => Qle_bool x y
  | _, _ => false
  end.

(** [a >= b] *)
Definition num_ge (a b : number) : bool := num_le b a.

Definition notna (a : number) : bool :=
  match a with
  | NaN => false
  | _ => true
  end.

(** ** Satisfaction segments

    [categorize_satisfaction], local to [load_and_process_data]; the two
    dashboards hold the same text. *)

Definition categorize_satisfaction (rating : number) : string :=
  if num_ge rating (Fin 8) then "Happy (8-10)"
  else if num_ge rating (Fin 6) then "Neutral (6-7)"
  else if num_ge rating (Fin 3) then "Disappointed (3-5)"
  else "Very Disappointed (1-2)".

Definition segment_labels : list string :=
  ["Happy (8-10)"; "Neutral (6-7)"; "Disappointed (3-5)"; "Very Disappointed (1-2)"].

(** ** The review table *)

(** A cell of the [Review Date] column: text as read from the file, a missing
    cell, or what [pd.to_datetime] leaves (a timestamp or NaT). *)
Inductive date_cell : Type :=
| DateText (s : string)
| DateMissing
| Timestamp (t : Z)
| NaT.

(** One row of [Airline Review.csv]. The seven service-rating columns are
    left out: nothing below reads them. *)
Record RawReview : Type := {
  raw_Airline_Name : option string;
  raw_Overall_Rating : number;
  raw_Review_Date : date_cell;
  raw_Type_Of_Traveller : option string;
  raw_Seat_Type : option string;
  raw_Route : option string;
  raw_Recommended : option string;
  raw_Review : option string
}.

(** A row after [load_and_process_data]: the columns of the file and the
    derived ones. [Review_Length] is [None] while the column does not exist. *)
Record Review : Type := {
  Airline_Name : option string;
  Overall_Rating : number;
  Review_Date : date_cell;
  Type_Of_Traveller : option string;
  Seat_Type : option string;
  Route : option string;
  Recommended : option string;
  Review_text : option string;
  Origin : option string;
  Destination : option string;
  Via : option string;
  Satisfaction_Segment : string;
  Review_Length : option nat
}.

Record DataFrame : Type := {
  has_Review_Date : bool;
  rows : list Review
}.

Record RawFrame : Type := {
  raw_has_Review_Date : bool;
  raw_rows : list RawReview
}.

(** [s.fillna('')] on one text cell *)
Definition fillna (c : option string) : string :=
  match c with
  | Some s => s
  | None => ""
  end.

(** [col == value] on one text cell: a missing cell equals nothing. *)
Definition cell_eqb (c : option string) (value : string) : bool :=
  match c with
  | Some s => String.eqb s value
  | None => false
  end.

Definition with_rows (df : DataFrame) (l : list Review) : DataFrame :=
  {| has_Review_Date := has_Review_Date df; rows := l |}.

(** [df[mask]] *)
Definition select (mask : Review -> bool) (df : DataFrame) : DataFrame :=
  with_rows df (filter mask (rows df)).

(** The derived columns of one row; [review_length] tells whether the loader
    adds [Review_Length]. *)
Definition derive (review_length : bool) (r : RawReview) : result Review :=
  '(origin, destination, via) <- parse_route (raw_Route r) ;;
  Return {|
    Airline_Name := raw_Airline_Name r;
    Overall_Rating := raw_Overall_Rating r;
    Review_Date := raw_Review_Date r;
    Type_Of_Traveller := raw_Type_Of_Traveller r;
    Seat_Type := raw_Seat_Type r;
    Route := raw_Route r;
    Recommended := raw_Recommended r;
    Review_text := raw_Review r;
    Origin := origin;
    Destination := destination;
    Via := via;
    Satisfaction_Segment := categorize_satisfaction (raw_Overall_Rating r);
    Review_Length :=
      if review_length then Some (String.length (fillna (raw_Review r))) else None
  |}.

Fixpoint derive_all (review_length : bool) (l : list RawReview) : result (list Review) :=
  match l with
  | [] => Return []
  | r :: l' =>
      'r' <- derive review_length r ;;
      'rs <- derive_all review_length l' ;;
      Return (r' :: rs)
  end.

(** [load_and_process_data]: the table read from the file, with its derived
    columns; [None] when anything raised ([except Exception]). *)
Definition load_and_process (review_length : bool) (csv : result RawFrame) : option DataFrame :=
  match csv with
  | Raise _ => None
  | Return f =>
      match derive_all review_length (raw_rows f) with
      | Return l => Some {| has_Review_Date := raw_has_Review_Date f; rows := l |}
      | Raise _ => None
      end
  end.

(** ** Python's [sorted] and [dict] *)

(** A stable insertion sort: [x] goes after [y] when [after x y], and
    otherwise stays ahead of what followed it. *)
Fixpoint insert_by {A : Type} (after : A -> A -> bool) (x : A) (l : list A) : list A :=
  match l with
  | [] => [x]
  | y :: l' => if after x y then y :: insert_by after x l' else x :: l
  end.

Fixpoint sort_by {A : Type} (after : A -> A -> bool) (l : list A) : list A :=
  match l with
  | [] => []
  | x :: l' => insert_by after x (sort_by after l')
  end.

(** Larger keys first. *)
Definition ge_key {A : Type} (key : A -> Z) (a b : A) : Prop := (key b <= key a)%Z.

(** [sorted(l, key=key, reverse=True)]: a stable sort, larger keys first, and
    equal keys in the order of [l]. *)
Definition sorted_desc {A : Type} (key : A -> Z) (l : list A) : list A :=
  sort_by (fun x y => (key x <? key y)%Z) l.

(** A [dict] with [str] keys keeps its entries in the order the keys were
    first set. *)
Definition dict (V : Type) : Type := list (string * V).

(** [d[k] = v] *)
Fixpoint dict_set {V : Type} (k : string) (v : V) (d : dict V) : dict V :=
  match d with
  | [] => [(k, v)]
  | (k', v') :: d' =>
      if String.eqb k' k then (k', v) :: d' else (k', v') :: dict_set k v d'
  end.

(** [d.items()] *)
Definition items {V : Type} (d : dict V) : list (string * V) := d.

(** [sum(l)] *)
Definition sum (l : list Z) : Z := fold_left Z.add l 0%Z.

(** ** Theme extractor ([advanced_airline_dashboard.py]) *)

Definition positive_themes : dict (list string) :=
  [ ("Staff Service", ["crew"; "staff"; "service"; "friendly"; "helpful"; "professional"]);
    ("Comfort", ["comfortable"; "seat"; "legroom"; "spacious"; "clean"]);
    ("Food & Beverage", ["food"; "meal"; "drink"; "beverage"; "delicious"; "tasty"]);
    ("Efficiency", ["on time"; "punctual"; "quick"; "fast"; "efficient"]);
    ("Value", ["value"; "price"; "cheap"; "reasonable"; "worth"]);
    ("Entertainment", ["entertainment"; "movie"; "tv"; "screen"; "wifi"]);
    ("Airport Experience", ["check-in"; "boarding"; "airport"; "lounge"; "gate"]) ].

Definition negative_themes : dict (list string) :=
  [ ("Poor Service", ["poor service"; "rude"; "unprofessional"; "slow service"; "bad service"]);
    ("Delays", ["delay"; "late"; "cancelled"; "postponed"; "waiting"]);
    ("Discomfort", ["uncomfortable"; "cramped"; "dirty"; "broken"; "small seat"]);
    ("Food Issues", ["bad food"; "poor meal"; "no food"; "terrible food"; "cold food"]);
    ("Booking Problems", ["booking"; "reservation"; "website"; "customer service"]);
    ("Baggage Issues", ["baggage"; "luggage"; "lost"; "damaged"; "extra charge"]);
    ("Communication", ["information"; "communication"; "announcement"; "language barrier"]) ].

(** The review texts the extractor reads: [df[mask]['Review'].fillna('')]. *)
Definition sentiment_reviews (df : DataFrame) (sentiment : string) : list string :=
  if String.eqb sentiment "positive" then
    map (fun r => fillna (Review_text r))
        (filter (fun r => num_ge (Overall_Rating r) (Fin 8)) (rows df))
  else
    map (fun r => fillna (Review_text r))
        (filter (fun r => num_le (Overall_Rating r) (Fin 3)) (rows df)).

Definition theme_count (all_text : string) (keywords : list string) : Z :=
  sum (map (fun keyword => PyStr.count keyword all_text) keywords).

Definition extract_review_themes (df : DataFrame) (sentiment : string) : list (string * Z) :=
  let reviews := sentiment_reviews df sentiment in
  let all_text := PyStr.lower (PyStr.join " " reviews) in
  let themes :=
    if String.eqb sentiment "positive" then positive_themes else negative_themes in
  let theme_counts :=
    fold_left
      (fun (theme_counts : dict Z) '(theme, keywords) =>
         dict_set theme (theme_count all_text keywords) theme_counts)
      (items themes) [] in
  sorted_desc snd (items theme_counts).

(** ** The sidebar filters

    The base table is the one object the filter stage is handed; the stage is
    a state transformer over it, and the tables it builds ([df.copy()],
    [df[mask]]) are fresh values. *)

Definition State (A : Type) : Type := DataFrame -> A * DataFrame.

Definition ret {A : Type} (a : A) : State A := fun df => (a, df).

Definition sbind {A B : Type} (m : State A) (k : A -> State B) : State B :=
  fun df => let '(a, df') := m df in k a df'.

Definition get : State DataFrame := fun df => (df, df).

Definition put (df' : DataFrame) : State unit := fun _ => (tt, df').

Notation "x <~ m ;; k" := (sbind m (fun x => k))
  (at level 61, m at next level, right associativity).
Notation "m ;;; k" := (sbind m (fun _ => k))
  (at level 61, right associativity).

(** What the sidebar widgets return. *)
Record Sidebar : Type := {
  selected_airline : string;
  selected_seat_class : string;
  selected_traveler_type : string;
  rating_range : Q * Q
}.

(** The equality filters both dashboards apply, in their order. *)
Definition apply_selectors (ui : Sidebar) (filtered_df : DataFrame) : DataFrame :=
  let filtered_df :=
    if negb (String.eqb (selected_airline ui) "All") then
      select (fun r => cell_eqb (Airline_Name r) (selected_airline ui)) filtered_df
    else filtered_df in
  let filtered_df :=
    if negb (String.eqb (selected_seat_class ui) "All") then
      select (fun r => cell_eqb (Seat_Type r) (selected_seat_class ui)) filtered_df
    else filtered_df in
  let filtered_df :=
    if negb (String.eqb (selected_traveler_type ui) "All") then
      select (fun r => cell_eqb (Type_Of_Traveller r) (selected_traveler_type ui)) filtered_df
    else filtered_df in
  filtered_df.

(** What pandas computes and this development does not: float aggregates,
    rounding, [sort_values] (whose order among equal keys is not fixed) and
    date parsing. *)
Class Pandas : Type := {
  (** [Series.mean()], missing cells skipped *)
  pd_mean : list number -> number;
  (** [(x == 'yes').mean() * 100] *)
  pd_rate : list bool -> number;
  (** [.round(2)] *)
  pd_round2 : number -> number;
  (** [sort_values(col, ascending=False)] *)
  pd_sort_desc : forall A : Type, (A -> number) -> list A -> list A;
  pd_sort_desc_perm :
    forall (A : Type) (col : A -> number) (l : list A),
      Permutation (pd_sort_desc A col l) l;
  (** [pd.to_datetime(text, errors='coerce')]: [None] is NaT *)
  pd_to_datetime : string -> option Z
}.

Arguments pd_sort_desc {_} {A} col l.

Module Advanced.

(** [create_interactive_filters] of [advanced_airline_dashboard.py] *)
Definition create_interactive_filters (ui : Sidebar) : State DataFrame :=
  df <~ get ;;
  let filtered_df := df in
  let filtered_df := apply_selectors ui filtered_df in
  let filtered_df :=
    select (fun r => num_ge (Overall_Rating r) (Fin (fst (rating_range ui))) &&
                     num_le (Overall_Rating r) (Fin (snd (rating_range ui))))
           filtered_df in
  ret filtered_df.

(** The slider's initial value, and the selectors' first option. *)
Definition default_sidebar : Sidebar :=
  {| selected_airline := "All";
     selected_seat_class := "All";
     selected_traveler_type := "All";
     rating_range := (1, 10)%Q |}.

End Advanced.

Module Basic.

Section WithPandas.
Context {pd : Pandas}.

Definition to_datetime (c : date_cell) : date_cell :=
  match c with
  | DateText s =>
      match pd_to_datetime s with
      | Some t => Timestamp t
      | None => NaT
      end
  | DateMissing => NaT
  | Timestamp t => Timestamp t
  | NaT => NaT
  end.

Definition set_Review_Date (f : date_cell -> date_cell) (r : Review) : Review :=
  {| Airline_Name := Airline_Name r;
     Overall_Rating := Overall_Rating r;
     Review_Date := f (Review_Date r);
     Type_Of_Traveller := Type_Of_Traveller r;
     Seat_Type := Seat_Type r;
     Route := Route r;
     Recommended := Recommended r;
     Review_text := Review_text r;
     Origin := Origin r;
     Destination := Destination r;
     Via := Via r;
     Satisfaction_Segment := Satisfaction_Segment r;
     Review_Length := Review_Length r |}.

(** [create_interactive_filters] of [airline_dashboard.py]; the date picker's
    value is never read. *)
Definition create_interactive_filters (ui : Sidebar) : State DataFrame :=
  df <~ get ;;
  (if has_Review_Date df then
     put (with_rows df (map (set_Review_Date to_datetime) (rows df)))
   else ret tt) ;;;
  df <~ get ;;
  let filtered_df := df in
  let filtered_df := apply_selectors ui filtered_df in
  ret filtered_df.

End WithPandas.

End Basic.

(** Filter operations run one after the other on the same base table. *)
Fixpoint run_filters (stage : Sidebar -> State DataFrame) (uis : list Sidebar)
  : State (list DataFrame) :=
  match uis with
  | [] => ret []
  | ui :: uis' =>
      filtered_df <~ stage ui ;;
      rest <~ run_filters stage uis' ;;
      ret (filtered_df :: rest)
  end.

(** ** Grouped summary tables *)

(** One row of a summary table: the group's value, the mean and the count of
    its ratings, and the recommendation rate where the view computes one. *)
Record Summary : Type := {
  group : string;
  Avg_Rating : number;
  Review_Count : Z;
  Recommendation_Rate : option number
}.

(** The groups of [df.groupby(col)]: the distinct values of the column in
    increasing order, missing cells left out. *)
Fixpoint insert_key (k : string) (l : list string) : list string :=
  match l with
  | [] => [k]
  | x :: l' =>
      match String.compare k x with
      | Lt => k :: l
      | Eq => l
      | Gt => x :: insert_key k l'
      end
  end.

Definition group_keys (col : Review -> option string) (df : DataFrame) : list string :=
  fold_right
    (fun r acc => match col r with Some k => insert_key k acc | None => acc end)
    [] (rows df).

Definition group_rows (col : Review -> option string) (df : DataFrame) (k : string)
  : list Review :=
  filter (fun r => cell_eqb (col r) k) (rows df).

Definition groupby (col : Review -> option string) (df : DataFrame)
  : list (string * list Review) :=
  map (fun k => (k, group_rows col df k)) (group_keys col df).

(** The [count] aggregate: the cells that are not missing. *)
Definition count_notna (l : list number) : Z :=
  Z.of_nat (List.length (filter notna l)).

(** [table[table[count_col] >= n]] *)
Definition min_sample (n : Z) (table : list Summary) : list Summary :=
  filter (fun s => (n <=? Review_Count s)%Z) table.

Section Aggregates.
Context {pd : Pandas}.

(** [.agg({'Overall_Rating': ['mean', 'count']}).round(2)] *)
Definition agg_rating (g : string * list Review) : Summary :=
  let ratings := map Overall_Rating (snd g) in
  {| group := fst g;
     Avg_Rating := pd_round2 (pd_mean ratings);
     Review_Count := count_notna ratings;
     Recommendation_Rate := None |}.

(** [.agg({'Overall_Rating': ['mean', 'count'],
           'Recommended': lambda x: (x == 'yes').mean() * 100}).round(2)] *)
Definition agg_rating_recommended (g : string * list Review) : Summary :=
  let ratings := map Overall_Rating (snd g) in
  {| group := fst g;
     Avg_Rating := pd_round2 (pd_mean ratings);
     Review_Count := count_notna ratings;
     Recommendation_Rate :=
       Some (pd_round2 (pd_rate (map (fun r => cell_eqb (Recommended r) "yes") (snd g)))) |}.

(** [['Overall_Rating'].agg(['mean', 'count'])] *)
Definition agg_mean_count (g : string * list Review) : Summary :=
  let ratings := map Overall_Rating (snd g) in
  {| group := fst g;
     Avg_Rating := pd_mean ratings;
     Review_Count := count_notna ratings;
     Recommendation_Rate := None |}.

(** [airline_dashboard.py]: [route_satisfaction] of
    [analyze_geographic_performance], [airline_metrics] of
    [analyze_competitive_landscape]. *)
Definition basic_route_satisfaction (df : DataFrame) : list Summary :=
  let route_satisfaction := map agg_rating (groupby Route df) in
  let route_satisfaction := min_sample 10 route_satisfaction in
  pd_sort_desc Avg_Rating route_satisfaction.

Definition basic_airline_metrics (df : DataFrame) : list Summary :=
  let airline_metrics := map agg_rating_recommended (groupby Airline_Name df) in
  let airline_metrics := min_sample 20 airline_metrics in
  pd_sort_desc Avg_Rating airline_metrics.

(** [advanced_airline_dashboard.py]: [airline_metrics] of
    [analyze_competitive_landscape]; [route_performance],
    [origin_performance] and [dest_performance] of
    [analyze_geographic_performance]. *)
Definition advanced_airline_metrics (df : DataFrame) : list Summary :=
  let airline_metrics := map agg_rating_recommended (groupby Airline_Name df) in
  let airline_metrics := min_sample 10 airline_metrics in
  pd_sort_desc Avg_Rating airline_metrics.

Definition advanced_route_performance (df : DataFrame) : list Summary :=
  let route_performance := map agg_rating_recommended (groupby Route df) in
  let route_performance := min_sample 5 route_performance in
  pd_sort_desc Avg_Rating route_performance.

Definition advanced_origin_performance (df : DataFrame) : list Summary :=
  let origin_performance := map agg_mean_count (groupby Origin df) in
  let origin_performance := min_sample 10 origin_performance in
  firstn 10 (pd_sort_desc Avg_Rating origin_performance).

Definition advanced_dest_performance (df : DataFrame) : list Summary :=
  let dest_performance := map agg_mean_count (groupby Destination df) in
  let dest_performance := min_sample 10 dest_performance in
  firstn 10 (pd_sort_desc Avg_Rating dest_performance).

End Aggregates.

(** The views that drop small groups. *)
Inductive View : Type :=
| BasicRouteSatisfaction
| BasicAirlineMetrics
| AdvancedAirlineMetrics
| AdvancedRoutePerformance
| AdvancedOriginPerformance
| AdvancedDestPerformance.

Definition run_view {pd : Pandas} (v : View) (df : DataFrame) : list Summary :=
  match v with
  | BasicRouteSatisfaction => basic_route_satisfaction df
  | BasicAirlineMetrics => basic_airline_metrics df
  | AdvancedAirlineMetrics => advanced_airline_metrics df
  | AdvancedRoutePerformance => advanced_route_performance df
  | AdvancedOriginPerformance => advanced_origin_performance df
  | AdvancedDestPerformance => advanced_dest_performance df
  end.

(** The column a view groups by, and its minimum sample size. *)
Definition view_column (v : View) : Review -> option string :=
  match v with
  | BasicRouteSatisfaction | AdvancedRoutePerformance => Route
  | BasicAirlineMetrics | AdvancedAirlineMetrics => Airline_Name
  | AdvancedOriginPerformance => Origin
  | AdvancedDestPerformance => Destination
  end.

Definition view_threshold (v : View) : Z :=
  match v with
  | BasicRouteSatisfaction => 10
  | BasicAirlineMetrics => 20
  | AdvancedAirlineMetrics => 10
  | AdvancedRoutePerformance => 5
  | AdvancedOriginPerformance => 10
  | AdvancedDestPerformance => 10
  end.

(** The rows of the table under one group value. *)
Definition group_size (col : Review -> option string) (df : DataFrame) (k : string) : Z :=
  Z.of_nat (List.length (group_rows col df k)).

(** An instance to compute with: exact means over the finite ratings,
    rounding to the nearest hundredth (ties to even), a stable sort with
    missing values last, and every date text unparsed. Theorems hold for
    every instance. *)
Definition exact_mean (l : list number) : number :=
  match filter notna l with
  | [] => NaN
  | l' =>
      Fin (fold_right (fun a acc => match a with Fin q => q + acc | _ => acc end) 0 l'
           / inject_Z (Z.of_nat (List.length l')))%Q
  end.

Definition exact_rate (l : list bool) : number :=
  match l with
  | [] => NaN
  | _ => Fin (100 * inject_Z (Z.of_nat (List.length (filter (fun b => b) l)))
              / inject_Z (Z.of_nat (List.length l)))%Q
  end.

Definition exact_round2 (a : number) : number :=
  match a with
  | Fin q =>
      let x := (q * 100)%Q in
      let f := Qfloor x in
      let d := (x - inject_Z f)%Q in
      let n :=
        match (d ?= 1 # 2)%Q with
        | Lt => f
        | Gt => (f + 1)%Z
        | Eq => if Z.even f then f else (f + 1)%Z
        end in
      Fin (inject_Z n / 100)%Q
  | _ => a
  end.

Definition after_desc {A : Type} (col : A -> number) (x y : A) : bool :=
  match col x, col y with
  | _, NaN => false
  | NaN, _ => true
  | a, b => negb (num_le b a)
  end.

#[export] Instance exact_pandas : Pandas.
Proof.
  refine {| pd_mean := exact_mean;
            pd_rate := exact_rate;
            pd_round2 := exact_round2;
            pd_sort_desc := fun A col l => sort_by (after_desc col) l;
            pd_sort_desc_perm := _;
            pd_to_datetime := fun _ => None |}.
  intros A col l.
  assert (Hins : forall x l', Permutation (insert_by (after_desc col) x l') (x :: l')).
  { intros x l'. induction l' as [|y l' IH]; simpl.
    - apply Permutation_refl.
    - destruct (after_desc col x y).
      + eapply perm_trans; [apply perm_skip, IH | apply perm_swap].
      + apply Permutation_refl. }
  induction l as [|x l IH]; simpl.
  - apply perm_nil.
  - eapply perm_trans; [apply Hins | apply perm_skip, IH].
Defined.

(** ** The filter stage's contract

    The predicate of section 4.5, in the spec's words: every selector that is
    not "All" must equal the row's cell, and the rating must lie in the
    inclusive range. *)
Definition selector_ok (selected : string) (cell : option string) : bool :=
  String.eqb selected "All" || cell_eqb cell selected.

Definition rating_within (lo hi : Q) (rating : number) : bool :=
  num_ge rating (Fin lo) && num_le rating (Fin hi).

Definition matches (ui : Sidebar) (r : Review) : bool :=
  selector_ok (selected_airline ui) (Airline_Name r) &&
  selector_ok (selected_seat_class ui) (Seat_Type r) &&
  selector_ok (selected_traveler_type ui) (Type_Of_Traveller r) &&
  rating_within (fst (rating_range ui)) (snd (rating_range ui)) (Overall_Rating r).

(** ** Sample rows *)

Definition raw_review (airline : option string) (rating : number)
  (date : date_cell) (route text : option string) : RawReview :=
  {| raw_Airline_Name := airline;
     raw_Overall_Rating := rating;
     raw_Review_Date := date;
     raw_Type_Of_Traveller := Some "Solo Leisure";
     raw_Seat_Type := Some "Economy Class";
     raw_Route := route;
     raw_Recommended := Some "yes";
     raw_Review := text |}.

(** The rows of a file as the advanced dashboard loads them, or no rows when
    loading fails. *)
Definition loaded (with_dates : bool) (l : list RawReview) : DataFrame :=
  match load_and_process true
          (Return {| raw_has_Review_Date := with_dates; raw_rows := l |}) with
  | Some df => df
  | None => {| has_Review_Date := with_dates; rows := [] |}
  end.

Definition unrated_review : RawReview :=
  raw_review (Some "Acme") NaN (DateText "1st January 2020")
             (Some "LON to NYC") (Some "Lost luggage and a rude crew").

Definition happy_review : RawReview :=
  raw_review (Some "Acme") (Fin 9) (DateText "2nd March 2021")
             (Some "LON to NYC via DXB") (Some "Friendly crew, ON TIME, tasty food").

Definition angry_review : RawReview :=
  raw_review (Some "Zenith") (Fin 2) (DateText "3rd May 2022")
             (Some "Paris") (Some "Delayed, then delayed again: rude staff").

Definition sample_df : DataFrame := loaded true [happy_review; angry_review].

Definition unrated_df : DataFrame := loaded true [unrated_review].

(** Nineteen rows of one airline and twenty of another. *)
Definition airline_rows (airline : string) (n : nat) : list RawReview :=
  repeat (raw_review (Some airline) (Fin 7) DateMissing (Some "LON to NYC") None) n.

Definition two_airlines_df : DataFrame :=
  loaded false (airline_rows "Acme" 19 ++ airline_rows "Zenith" 20).

(** ** Helpers for stating the properties below *)

(** A text that does not begin with whitespace. *)
Definition starts_clean (s : string) : Prop :=
  match s with
  | EmptyString => True
  | String c _ => PyStr.isspace c = false
  end.

(** Whether a component is missing or already trimmed. *)
Definition trimmed_or_missing (c : option string) : Prop :=
  match c with
  | Some s => PyStr.strip s = s
  | None => True
  end.

(** What the loader makes of one row of the file: the file's columns as they
    were, and the derived ones. *)
Definition loaded_from (review_length : bool) (raw : RawReview) (r : Review) : Prop :=
  Airline_Name r = raw_Airline_Name raw /\
  Overall_Rating r = raw_Overall_Rating raw /\
  Review_Date r = raw_Review_Date raw /\
  Type_Of_Traveller r = raw_Type_Of_Traveller raw /\
  Seat_Type r = raw_Seat_Type raw /\
  Route r = raw_Route raw /\
  Recommended r = raw_Recommended raw /\
  Review_text r = raw_Review raw /\
  parse_route (raw_Route raw) = Return (Origin r, Destination r, Via r) /\
  Satisfaction_Segment r = categorize_satisfaction (raw_Overall_Rating raw) /\
  Review_Length r =
    (if review_length then Some (String.length (fillna (raw_Review raw))) else None).

(** The segments from the lowest to the highest. *)
Definition segment_rank (label : string) : nat :=
  if String.eqb label "Happy (8-10)" then 3
  else if String.eqb label "Neutral (6-7)" then 2
  else if String.eqb label "Disappointed (3-5)" then 1
  else 0.

(** ** Passenger groups

    [happy_passengers] and [frustrated_passengers] of
    [analyze_happiness_drivers] (both dashboards), and the rows of one
    segment, [df[df['Satisfaction_Segment'] == label]], as
    [analyze_review_themes] of [airline_dashboard.py] takes them. *)
Definition happy_passengers (df : DataFrame) : DataFrame :=
  select (fun r => num_ge (Overall_Rating r) (Fin 8)) df.

Definition frustrated_passengers (df : DataFrame) : DataFrame :=
  select (fun r => num_le (Overall_Rating r) (Fin 3)) df.

Definition segment_rows (label : string) (df : DataFrame) : DataFrame :=
  select (fun r => String.eqb (Satisfaction_Segment r) label) df.

(** The segment column holds what the loader derived from the ratings. *)
Definition segments_derived (df : DataFrame) : Prop :=
  Forall (fun r => Satisfaction_Segment r = categorize_satisfaction (Overall_Rating r))
         (rows df).

(** ** Value counts

    [Series.value_counts()]: one row for each value that occurs, missing
    cells left out, with the number of its occurrences; larger counts first.
    What pandas does with equal counts is not fixed, so the order is taken
    from an interface that promises no more than that. *)
Class ValueCounts : Type := {
  vc_order : list (string * Z) -> list (string * Z);
  vc_order_perm : forall l, Permutation (vc_order l) l;
  vc_order_sorted : forall l, StronglySorted (ge_key snd) (vc_order l)
}.

(** [s.dropna()] on a text column *)
Definition dropna (cells : list (option string)) : list string :=
  flat_map (fun c => match c with Some s => [s] | None => [] end) cells.

Definition occurrences (value : string) (values : list string) : Z :=
  Z.of_nat (count_occ string_dec values value).

Definition value_counts {vc : ValueCounts} (cells : list (option string))
  : list (string * Z) :=
  let values := dropna cells in
  vc_order (map (fun value => (value, occurrences value values))
                (nodup string_dec values)).

(** [segment_dist] of [create_satisfaction_overview] (both dashboards) *)
Definition segment_dist {vc : ValueCounts} (df : DataFrame) : list (string * Z) :=
  value_counts (map (fun r => Some (Satisfaction_Segment r)) (rows df)).

(** [origin_volume] and [dest_volume] of [analyze_geographic_performance]
    in [airline_dashboard.py]: [df[col].value_counts().head(10)] *)
Definition origin_volume {vc : ValueCounts} (df : DataFrame) : list (string * Z) :=
  firstn 10 (value_counts (map Origin (rows df))).

Definition dest_volume {vc : ValueCounts} (df : DataFrame) : list (string * Z) :=
  firstn 10 (value_counts (map Destination (rows df))).

(** An instance to compute with: equal counts in the order of first
    occurrence. *)
#[export] Instance stable_value_counts : ValueCounts.
Proof.
  assert (Hins : forall (x : string * Z) l,
             Permutation (insert_by (fun a b => (snd a <? snd b)%Z) x l) (x :: l)).
  { intros x l. induction l as [|y l IH]; simpl.
    - apply Permutation_refl.
    - destruct (snd x <? snd y)%Z.
      + eapply perm_trans; [apply perm_skip, IH | apply perm_swap].
      + apply Permutation_refl. }
  refine {| vc_order := sorted_desc snd; vc_order_perm := _; vc_order_sorted := _ |}.
  - intros l. unfold sorted_desc. induction l as [|x l IH]; simpl.
    + apply perm_nil.
    + eapply perm_trans; [apply Hins | apply perm_skip, IH].
  - intros l. unfold sorted_desc. induction l as [|x l IH]; simpl.
    + constructor.
    + revert IH. generalize (sort_by (fun a b => (snd a <? snd b)%Z) l). intros l'.
      induction 1 as [|y l' Hs IH' Hy]; simpl.
      * repeat constructor.
      * destruct (snd x <? snd y)%Z eqn:E.
        -- apply Z.ltb_lt in E. constructor; [exact IH'|].
           eapply Permutation_Forall; [apply Permutation_sym, Hins|].
           constructor; [unfold ge_key; lia | exact Hy].
        -- apply Z.ltb_ge in E. constructor; [now constructor|].
           constructor; [exact E|].
           eapply Forall_impl; [|exact Hy]. unfold ge_key. intros z Hz. lia.
Defined.

(** What makes [top] the ten most frequent values of a column: at most ten
    values, each once, each with the number of its rows; and a value of the
    column that is left out only when ten are listed, none of them with
    fewer rows. *)
Definition top_ten_of (col : Review -> option string) (df : DataFrame)
  (top : list (string * Z)) : Prop :=
  (List.length top <= 10)%nat /\
  NoDup (map fst top) /\
  (forall value n, In (value, n) top -> n = group_size col df value /\ (0 < n)%Z) /\
  (forall value,
      (0 < group_size col df value)%Z -> ~ In value (map fst top) ->
      List.length top = 10%nat /\
      forall value' n', In (value', n') top -> (group_size col df value <= n')%Z).

(** [enumerate(l, start)] *)
Definition enumerate {A : Type} (l : list A) (start : nat) : list (nat * A) :=
  combine (seq start (List.length l)) l.

(** The numbered themes [analyze_review_themes_advanced] writes for one
    sentiment: [enumerate(themes[:6], 1)] over the extractor's result. *)
Definition displayed_themes (df : DataFrame) (sentiment : string)
  : list (nat * (string * Z)) :=
  enumerate (firstn 6 (extract_review_themes df sentiment)) 1.

(** The happy sample row with its review in capitals. *)
Definition shouting_df : DataFrame :=
  loaded true
    [raw_review (Some "Acme") (Fin 9) (DateText "2nd March 2021")
                (Some "LON to NYC via DXB") (Some "FRIENDLY CREW, ON TIME, TASTY FOOD");
     angry_review].

(** [sorted(df[col].dropna().unique().tolist())] is [group_keys col df];
    the options of a sidebar selector are ["All"] and these. *)
Definition selector_options (col : Review -> option string) (df : DataFrame)
  : list string :=
  "All" :: group_keys col df.

Definition string_lt (a b : string) : Prop := String.compare a b = Lt.

(** A sidebar with one airline chosen and every other control at its
    default. *)
Definition only_airline (airline : string) : Sidebar :=
  {| selected_airline := airline;
     selected_seat_class := "All";
     selected_traveler_type := "All";
     rating_range := (1, 10)%Q |}.

(** The rated rows of a group: what the [count] column of a view holds. *)
Definition rated_count (col : Review -> option string) (df : DataFrame) (k : string) : Z :=
  count_notna (map Overall_Rating (group_rows col df k)).

(** The views cut to their first ten rows. *)
Definition truncated (v : View) : bool :=
  match v with
  | AdvancedOriginPerformance | AdvancedDestPerformance => true
  | _ => false
  end.

(** ** Lookups in a summary table *)

Inductive error : Type :=
| IndexError.

Inductive outcome (A : Type) : Type :=
| Ok (a : A)
| Err (e : error).

Arguments Ok {A} a.
Arguments Err {A} e.

(** [table.iloc[i]]: the row at position [i], counted from the end when [i]
    is negative; [IndexError] outside the table. *)
Definition iloc {A : Type} (table : list A) (i : Z) : outcome A :=
  let n := Z.of_nat (List.length table) in
  let j := if (i <? 0)%Z then (i + n)%Z else i in
  if ((0 <=? j) && (j <? n))%Z then
    match nth_error table (Z.to_nat j) with
    | Some a => Ok a
    | None => Err IndexError
    end
  else Err IndexError.

(** [best_airline] and [worst_airline] of [analyze_competitive_landscape] in
    [airline_dashboard.py], and [best_airline] in
    [advanced_airline_dashboard.py]. *)
Definition basic_best_worst {pd : Pandas} (df : DataFrame) : outcome (Summary * Summary) :=
  let airline_metrics := basic_airline_metrics df in
  match iloc airline_metrics 0 with
  | Err e => Err e
  | Ok best_airline =>
      match iloc airline_metrics (-1) with
      | Err e => Err e
      | Ok worst_airline => Ok (best_airline, worst_airline)
      end
  end.

Definition advanced_best {pd : Pandas} (df : DataFrame) : outcome Summary :=
  let airline_metrics := advanced_airline_metrics df in
  iloc airline_metrics 0.

(** Twenty rows of one airline, one of them without a rating. *)
Definition one_unrated_df : DataFrame :=
  loaded false
    (raw_review (Some "Acme") NaN DateMissing (Some "LON to NYC") None
       :: airline_rows "Acme" 19).

(** ** The launcher and the deployment helper

    [launch_dashboard.py] and [deploy_helper.py] check files, ask the user
    and run programs. A run is modelled over a file system and the outcomes
    of the programs it starts, which are inputs; it leaves a trace of the
    programs started, the questions asked and the files written. Console
    lines are not traced, except the report of missing files and the
    deployment instructions. The programs are taken to leave [.gitignore]
    alone. *)

Module Scripts.

(** How [subprocess.run(..., check=True)] or [subprocess.check_call] ends. *)
Inductive run_result : Type :=
| Completed
| CalledProcessError
| FileNotFoundError.

Inductive prompt : Type :=
| AskInstall
| AskLaunch
| AskInitRepo
| AskCommit.

Inductive event : Type :=
| Run (argv : list string)
| Input (question : prompt)
| Write (path content : string)
| ReportMissing (files : list string)
| ShowInstructions.

(** A path holds a file's text, or nothing. *)
Definition FileSystem : Type := string -> option string.

Definition fs_exists (fs : FileSystem) (path : string) : bool :=
  match fs path with
  | Some _ => true
  | None => false
  end.

(** [open(path, 'w').write(content)] *)
Definition fs_write (fs : FileSystem) (path content : string) : FileSystem :=
  fun p => if String.eqb p path then Some content else fs p.

Record World : Type := {
  files : FileSystem;
  trace : list event
}.

(** A step ends normally or with an exception nothing has caught yet. *)
Inductive status (A : Type) : Type :=
| Done (a : A)
| Uncaught (e : run_result).

Arguments Done {A} a.
Arguments Uncaught {A} e.

Definition Script (A : Type) : Type := World -> status A * World.

Definition pure {A : Type} (a : A) : Script A := fun w => (Done a, w).

Definition andthen {A B : Type} (m : Script A) (k : A -> Script B) : Script B :=
  fun w =>
    match m w with
    | (Done a, w') => k a w'
    | (Uncaught e, w') => (Uncaught e, w')
    end.

Notation "x <-- m ;; k" := (andthen m (fun x => k))
  (at level 61, m at next level, right associativity).
Notation "m >>> k" := (andthen m (fun _ => k))
  (at level 61, right associativity).

Definition emit (e : event) : Script unit :=
  fun w => (Done tt, {| files := files w; trace := trace w ++ [e] |}).

(** [os.path.exists(path)] *)
Definition path_exists (path : string) : Script bool :=
  fun w => (Done (fs_exists (files w) path), w).

Definition write_file (path content : string) : Script unit :=
  fun w => (Done tt, {| files := fs_write (files w) path content;
                        trace := trace w ++ [Write path content] |}).

(** A checked run: the program is started, and a result other than
    [Completed] is raised. *)
Definition run_checked (argv : list string) (result : run_result) : Script unit :=
  emit (Run argv) >>>
  match result with
  | Completed => pure tt
  | e => fun w => (Uncaught e, w)
  end.

(** [try: m except <caught>: handler] *)
Definition try_except {A : Type} (m : Script A) (caught : run_result -> bool)
  (handler : run_result -> Script A) : Script A :=
  fun w =>
    match m w with
    | (Uncaught e, w') => if caught e then handler e w' else (Uncaught e, w')
    | r => r
    end.

(** [input(question)] *)
Definition input (question : prompt) (reply : string) : Script string :=
  emit (Input question) >>> pure reply.

(** [reply.lower().strip() in ['y', 'yes']] *)
Definition yes (reply : string) : bool :=
  let answer := PyStr.strip (PyStr.lower reply) in
  String.eqb answer "y" || String.eqb answer "yes".

Definition is_called_process_error (e : run_result) : bool :=
  match e with
  | CalledProcessError => true
  | _ => false
  end.

Definition is_file_not_found (e : run_result) : bool :=
  match e with
  | FileNotFoundError => true
  | _ => false
  end.

(** *** [launch_dashboard.py] *)

Module Launch.

Record Env : Type := {
  executable : string;
  pip_requirements : run_result;
  pip_core : run_result;
  reply_install : string;
  reply_launch : string
}.

Definition pip_requirements_argv (env : Env) : list string :=
  [executable env; "-m"; "pip"; "install"; "-r"; "requirements_advanced.txt"].

Definition pip_core_argv (env : Env) : list string :=
  [executable env; "-m"; "pip"; "install";
   "streamlit"; "pandas"; "matplotlib"; "seaborn"; "plotly"; "scipy"; "scikit-learn"].

Definition streamlit_argv (env : Env) : list string :=
  [executable env; "-m"; "streamlit"; "run"; "advanced_airline_dashboard.py"].

Definition check_file_exists (filename : string) : Script bool :=
  path_exists filename.

Definition install_requirements (env : Env) : Script bool :=
  try_except
    (try_except
       (run_checked (pip_requirements_argv env) (pip_requirements env) >>> pure true)
       is_called_process_error
       (fun _ => pure false))
    is_file_not_found
    (fun _ =>
       try_except
         (run_checked (pip_core_argv env) (pip_core env) >>> pure true)
         is_called_process_error
         (fun _ => pure false)).

(** [subprocess.run] without [check], inside [except Exception]: whatever
    happens to the program, the function returns. *)
Definition launch_dashboard (env : Env) : Script unit :=
  emit (Run (streamlit_argv env)).

Definition main (env : Env) : Script unit :=
  data <-- check_file_exists "Airline Review.csv" ;;
  if negb data then pure tt
  else
    dashboard <-- check_file_exists "advanced_airline_dashboard.py" ;;
    if negb dashboard then pure tt
    else
      install_deps <-- input AskInstall (reply_install env) ;;
      (if yes install_deps
       then installed <-- install_requirements env ;; pure tt
       else pure tt) >>>
      launch_input <-- input AskLaunch (reply_launch env) ;;
      if yes launch_input then launch_dashboard env else pure tt.

End Launch.

(** *** [deploy_helper.py] *)

Module Deploy.

Record Env : Type := {
  git_version : run_result;
  git_init : run_result;
  git_branch : run_result;
  git_add : run_result;
  git_commit : run_result;
  reply_init : string;
  reply_commit : string
}.

Definition required_files : list string :=
  ["advanced_airline_dashboard.py"; "Airline Review.csv"; "requirements_advanced.txt"].

Definition gitignore_content : string :=
"# Python
__pycache__/
*.py[cod]
*$py.class
*.so
.Python
env/
venv/
ENV/
env.bak/
venv.bak/

# Jupyter Notebook
.ipynb_checkpoints

# IDE
.vscode/
.idea/
*.swp
*.swo

# OS
.DS_Store
Thumbs.db

# Logs
*.log

# Local environment variables
.env
".

Definition check_git_installed (env : Env) : Script bool :=
  try_except
    (run_checked ["git"; "--version"] (git_version env) >>> pure true)
    (fun e => is_called_process_error e || is_file_not_found e)
    (fun _ => pure false).

Definition check_git_repo : Script bool := path_exists ".git".

Definition initialize_git_repo (env : Env) : Script bool :=
  try_except
    (run_checked ["git"; "init"] (git_init env) >>>
     run_checked ["git"; "branch"; "-M"; "main"] (git_branch env) >>>
     pure true)
    is_called_process_error
    (fun _ => pure false).

Definition create_gitignore : Script unit :=
  present <-- path_exists ".gitignore" ;;
  if negb present then write_file ".gitignore" gitignore_content else pure tt.

Definition commit_files (env : Env) : Script bool :=
  try_except
    (run_checked ["git"; "add"; "."] (git_add env) >>>
     run_checked ["git"; "commit"; "-m"; "Initial airline dashboard commit"]
                 (git_commit env) >>>
     pure true)
    is_called_process_error
    (fun _ => pure false).

Definition show_deployment_instructions : Script unit := emit ShowInstructions.

Fixpoint missing_files (required : list string) : Script (list string) :=
  match required with
  | [] => pure []
  | file :: rest =>
      present <-- path_exists file ;;
      missing <-- missing_files rest ;;
      pure (if negb present then file :: missing else missing)
  end.

Definition check_required_files : Script bool :=
  missing <-- missing_files required_files ;;
  match missing with
  | [] => pure true
  | _ => emit (ReportMissing missing) >>> pure false
  end.

(** What [main] does once the files, git and the repository are there. *)
Definition main_with_repo (env : Env) : Script unit :=
  create_gitignore >>>
  commit_choice <-- input AskCommit (reply_commit env) ;;
  (if yes commit_choice
   then committed <-- commit_files env ;; pure tt
   else pure tt) >>>
  show_deployment_instructions.

Definition main (env : Env) : Script unit :=
  files_ok <-- check_required_files ;;
  if negb files_ok then pure tt
  else
    git_ok <-- check_git_installed env ;;
    if negb git_ok then pure tt
    else
      repo <-- check_git_repo ;;
      if negb repo then
        init_repo <-- input AskInitRepo (reply_init env) ;;
        if yes init_repo then
          initialized <-- initialize_git_repo env ;;
          if negb initialized then pure tt else main_with_repo env
        else pure tt
      else main_with_repo env.

(** A prerequisite of deployment: the three files, git, and a repository
    that was there or that the user had the helper create. *)
Definition ready (env : Env) (fs : FileSystem) : Prop :=
  Forall (fun file => fs_exists fs file = true) required_files /\
  git_version env = Completed /\
  (fs_exists fs ".git" = true \/
   (yes (reply_init env) = true /\ git_init env = Completed /\
    git_branch env = Completed)).

End Deploy.

Definition start (fs : FileSystem) : World := {| files := fs; trace := [] |}.

(** A directory with the three required files and nothing else. *)
Definition fresh_checkout : FileSystem :=
  fun p => if existsb (String.eqb p) Deploy.required_files then Some "" else None.

Definition agreeable : Deploy.Env :=
  {| Deploy.git_version := Completed;
     Deploy.git_init := Completed;
     Deploy.git_branch := Completed;
     Deploy.git_add := Completed;
     Deploy.git_commit := CalledProcessError;
     Deploy.reply_init := "Y";
     Deploy.reply_commit := " yes " |}.

End Scripts.

(** [df['Review_Length'] = df['Review'].fillna('').astype(str).str.len()],
    which [analyze_review_themes] of [airline_dashboard.py] runs on the
    table it is handed. *)
Definition set_Review_Length (r : Review) : Review :=
  {| Airline_Name := Airline_Name r;
     Overall_Rating := Overall_Rating r;
     Review_Date := Review_Date r;
     Type_Of_Traveller := Type_Of_Traveller r;
     Seat_Type := Seat_Type r;
     Route := Route r;
     Recommended := Recommended r;
     Review_text := Review_text r;
     Origin := Origin r;
     Destination := Destination r;
     Via := Via r;
     Satisfaction_Segment := Satisfaction_Segment r;
     Review_Length := Some (String.length (fillna (Review_text r))) |}.

Definition add_review_length (df : DataFrame) : DataFrame :=
  with_rows df (map set_Review_Length (rows df)).

(** * Properties *)

(** ** Strings *)

Module PyStrFacts.
Import PyStr.
Local Open Scope string_scope.

Lemma strip_prefix_app (p s r : string) :
  strip_prefix p s = Some r -> s = p ++ r.
Proof.
  revert s. induction p as [|a p IH]; intros s H; simpl in *.
  - now inversion H.
  - destruct s as [|b s]; [discriminate|].
    destruct (Ascii.eqb a b) eqn:E; [|discriminate].
    apply Ascii.eqb_eq in E. subst b. f_equal. now apply IH.
Qed.

Lemma strip_prefix_complete (p r : string) :
  strip_prefix p (p ++ r) = Some r.
Proof.
  induction p as [|a p IH]; simpl; [reflexivity|].
  now rewrite Ascii.eqb_refl.
Qed.

Lemma strip_prefix_lower (p s r : string) :
  strip_prefix p s = Some r ->
  strip_prefix (lower p) (lower s) = Some (lower r).
Proof.
  revert s. induction p as [|a p IH]; intros s H; simpl in *.
  - now inversion H.
  - destruct s as [|b s]; [discriminate|]. simpl.
    destruct (Ascii.eqb a b) eqn:E; [|discriminate].
    apply Ascii.eqb_eq in E. subst b. rewrite Ascii.eqb_refl. now apply IH.
Qed.

(** Lowering the text keeps every occurrence of a phrase, lowered. *)
Lemma contains_lower (p s : string) :
  contains p s = true -> contains (lower p) (lower s) = true.
Proof.
  induction s as [|c s IH]; simpl; intros H.
  - destruct (strip_prefix p "") eqn:E; [|discriminate].
    apply strip_prefix_lower in E. simpl in E. now rewrite E.
  - destruct (strip_prefix p (String c s)) eqn:E.
    + apply strip_prefix_lower in E. simpl in E. now rewrite E.
    + destruct (strip_prefix (lower p) (String (lower_char c) (lower s)));
        [reflexivity | now apply IH].
Qed.

Lemma partition_contains (sep s : string) :
  contains sep s = true <-> exists a b, partition sep s = Some (a, b).
Proof.
  induction s as [|c s IH]; simpl.
  - destruct (strip_prefix sep ""); split; intros H; eauto; try discriminate.
    now destruct H as (a & b & H).
  - destruct (strip_prefix sep (String c s)).
    + split; eauto.
    + rewrite IH. destruct (partition sep s) as [[a b]|].
      * split; eauto.
      * split; intros (a & b & H); discriminate.
Qed.

(** [partition] cuts at an occurrence of the separator... *)
Lemma partition_app (sep s a b : string) :
  partition sep s = Some (a, b) -> s = a ++ sep ++ b.
Proof.
  revert a. induction s as [|c s IH]; intros a; simpl.
  - destruct (strip_prefix sep "") eqn:E; [|discriminate].
    intros H. inversion H; subst. now apply strip_prefix_app in E.
  - destruct (strip_prefix sep (String c s)) eqn:E.
    + intros H. inversion H; subst. now apply strip_prefix_app in E.
    + destruct (partition sep s) as [[a' b']|]; [|discriminate].
      intros H. inversion H; subst. simpl. f_equal. now apply IH.
Qed.

(** ... and at the first one. *)
Lemma partition_first (sep s a b a' b' : string) :
  partition sep s = Some (a, b) ->
  s = a' ++ sep ++ b' ->
  (String.length a <= String.length a')%nat.
Proof.
  revert a a'. induction s as [|c s IH]; intros a a'; simpl.
  - destruct (strip_prefix sep ""); [|discriminate].
    intros H _. inversion H; subst. simpl. lia.
  - destruct (strip_prefix sep (String c s)) eqn:E.
    + intros H _. inversion H; subst. simpl. lia.
    + destruct (partition sep s) as [[a0 b0]|] eqn:P; [|discriminate].
      intros H Hs. inversion H; subst.
      destruct a' as [|c' a']; simpl in Hs.
      * rewrite Hs in E. now rewrite strip_prefix_complete in E.
      * inversion Hs; subst. simpl. apply le_n_S. now apply (IH a0 a').
Qed.

Lemma split1_found (sep s a b : string) :
  partition sep s = Some (a, b) -> split1 sep s = [a; b].
Proof. intros H. unfold split1. now rewrite H. Qed.

End PyStrFacts.

(** ** Route parser *)

Example parse_route_full :
  parse_route (Some "LON to NYC via DXB") = Return (Some "LON", Some "NYC", Some "DXB").
Proof. reflexivity. Qed.

Example parse_route_direct :
  parse_route (Some "LON to NYC") = Return (Some "LON", Some "NYC", None).
Proof. reflexivity. Qed.

Example parse_route_city :
  parse_route (Some " Paris ") = Return (Some "Paris", None, None).
Proof. reflexivity. Qed.

Example parse_route_capital_to :
  parse_route (Some "A To B") = Return (Some "A To B", None, None).
Proof. reflexivity. Qed.

(** C1. The parser is not total on mixed-case separators: the separator is
    looked for in the lowered text and the split is made on the text as
    written, so on "A Via B" and on "A To B via C" the split yields one part
    and unpacking it into two names raises [ValueError]. The plain " to "
    branch guards the same split with [len(parts) == 2]. *)
Theorem parse_route_mixed_case_raises :
  parse_route (Some "A Via B") = Raise ValueError /\
  parse_route (Some "A To B via C") = Raise ValueError /\
  load_and_process true
    (Return {| raw_has_Review_Date := false;
               raw_rows := [raw_review None (Fin 9) DateMissing (Some "A Via B") None] |})
  = None.
Proof. repeat split. Qed.

(** C4, as the code has it: when the trimmed route holds " via " as written
    and the text before the first one has no " to " in any case, the parser
    returns the whole trimmed route, via qualifier included, as the origin. *)
Theorem parse_route_via_without_to (s main_route via_part : string) :
  PyStr.partition " via " (PyStr.strip s) = Some (main_route, via_part) ->
  PyStr.contains " to " (PyStr.lower main_route) = false ->
  parse_route (Some s) = Return (Some (PyStr.strip s), None, None).
Proof.
  intros Hvia Hto. unfold parse_route.
  assert (Hin : PyStr.contains " via " (PyStr.lower (PyStr.strip s)) = true).
  { apply (PyStrFacts.contains_lower " via ").
    apply PyStrFacts.partition_contains. eauto. }
  rewrite Hin, (PyStrFacts.split1_found _ _ _ _ Hvia). simpl.
  now rewrite Hto.
Qed.

(** A route with a via city and no destination, spaces around it. *)
Lemma parse_route_via_without_to_witness :
  parse_route (Some "  Dubai via Doha ") = Return (Some "Dubai via Doha", None, None).
Proof.
  exact (parse_route_via_without_to "  Dubai via Doha " "Dubai" "Doha" eq_refl eq_refl).
Defined.

(** C4, as stated, fails on "X via Y": the origin returned is the whole
    route, not the part before " via ". *)
Lemma parse_route_via_keeps_whole_route :
  PyStr.contains " via " (PyStr.lower "X via Y") = true /\
  PyStr.partition " via " "X via Y" = Some ("X", "Y") /\
  PyStr.contains " to " (PyStr.lower "X") = false /\
  parse_route (Some "X via Y") = Return (Some "X via Y", None, None) /\
  parse_route (Some "X via Y") <> Return (Some "X", None, None).
Proof. repeat split. discriminate. Qed.

Ltac route_cases H :=
  unfold PyStr.split1 in H;
  repeat (match type of H with
          | context [if ?c then _ else _] => destruct c eqn:?
          | context [match PyStr.partition ?a ?b with _ => _ end] =>
              destruct (PyStr.partition a b) as [[? ?]|] eqn:?
          end; simpl in H).

(** C9. Whenever the parser returns: a missing route gives three missing
    fields; a route that is present gives an origin, which is the trimmed
    route whenever no destination is given; a destination comes with an
    origin, and a via city with both. *)
Theorem parse_route_nullness (r : option string) (o d v : option string) :
  parse_route r = Return (o, d, v) ->
  (r = None -> o = None /\ d = None /\ v = None) /\
  (forall s, r = Some s -> o <> None /\ (d = None -> o = Some (PyStr.strip s))) /\
  (d <> None -> o <> None) /\
  (v <> None -> o <> None /\ d <> None).
Proof.
  intros H. destruct r as [s|]; unfold parse_route in H.
  - route_cases H; try discriminate; inversion H; subst;
      repeat split; try congruence; intros; try discriminate.
  - inversion H; subst. repeat split; try congruence; intros; discriminate.
Qed.

(** A route with all three parts. *)
Lemma parse_route_nullness_witness :
  parse_route (Some "LON to NYC via DXB") = Return (Some "LON", Some "NYC", Some "DXB") /\
  (Some "DXB" <> None -> Some "LON" <> None /\ Some "NYC" <> @None string).
Proof.
  split; [reflexivity|].
  exact (proj2 (proj2 (proj2
    (parse_route_nullness (Some "LON to NYC via DXB") _ _ _ eq_refl)))).
Defined.

(** ** Satisfaction segments *)

Lemma num_ge_fin (q c : Q) : num_ge (Fin q) (Fin c) = true <-> (c <= q)%Q.
Proof. unfold num_ge, num_le. apply Qle_bool_iff. Qed.

Lemma num_ge_fin_false (q c : Q) : num_ge (Fin q) (Fin c) = false <-> (q < c)%Q.
Proof.
  rewrite <- Bool.not_true_iff_false, num_ge_fin. split.
  - apply Qnot_le_lt.
  - intros H H'. apply (Qlt_not_le _ _ H H').
Qed.

(** C2. On every number the chain picks the label of the interval the rating
    lies in, and no other: from 8 up Happy, from 6 up to 8 Neutral, from 3 up
    to 6 Disappointed, below 3 Very Disappointed; the infinities follow the
    same chain, the four labels are distinct, and nothing is clamped (0 is
    Very Disappointed, 11 is Happy). *)
Theorem categorize_satisfaction_partition :
  (forall q : Q,
      (categorize_satisfaction (Fin q) = "Happy (8-10)" <-> (8 <= q)%Q) /\
      (categorize_satisfaction (Fin q) = "Neutral (6-7)" <-> (6 <= q /\ q < 8)%Q) /\
      (categorize_satisfaction (Fin q) = "Disappointed (3-5)" <-> (3 <= q /\ q < 6)%Q) /\
      (categorize_satisfaction (Fin q) = "Very Disappointed (1-2)" <-> (q < 3)%Q)) /\
  categorize_satisfaction PosInf = "Happy (8-10)" /\
  categorize_satisfaction NegInf = "Very Disappointed (1-2)" /\
  (forall r : number, In (categorize_satisfaction r) segment_labels) /\
  NoDup segment_labels /\
  categorize_satisfaction (Fin 0) = "Very Disappointed (1-2)" /\
  categorize_satisfaction (Fin 11) = "Happy (8-10)" /\
  map categorize_satisfaction [Fin 8; Fin 6; Fin 3]
  = ["Happy (8-10)"; "Neutral (6-7)"; "Disappointed (3-5)"].
Proof.
  split; [|repeat split].
  - intros q. unfold categorize_satisfaction.
    destruct (num_ge (Fin q) (Fin 8)) eqn:H8;
      [apply num_ge_fin in H8 | apply num_ge_fin_false in H8];
      (destruct (num_ge (Fin q) (Fin 6)) eqn:H6;
       [apply num_ge_fin in H6 | apply num_ge_fin_false in H6]);
      (destruct (num_ge (Fin q) (Fin 3)) eqn:H3;
       [apply num_ge_fin in H3 | apply num_ge_fin_false in H3]);
      repeat split; intros; try discriminate; try reflexivity; try lra.
  - intros r. unfold categorize_satisfaction, segment_labels.
    destruct (num_ge r (Fin 8)); [simpl; tauto|].
    destruct (num_ge r (Fin 6)); [simpl; tauto|].
    destruct (num_ge r (Fin 3)); simpl; tauto.
  - unfold segment_labels.
    repeat constructor; simpl; intros H;
      repeat (destruct H as [H|H]; [discriminate|]); exact H.
Qed.

(** C3. A missing rating is given a label: every comparison with NaN is
    false, so the chain falls through to its last branch, and the loaded
    table carries "Very Disappointed (1-2)" for the row. *)
Theorem categorize_satisfaction_missing :
  categorize_satisfaction NaN = "Very Disappointed (1-2)" /\
  map Satisfaction_Segment (rows unrated_df) = ["Very Disappointed (1-2)"] /\
  map Overall_Rating (rows unrated_df) = [NaN].
Proof. repeat split. Qed.

(** ** Sorting and dictionaries *)

Section SortBy.
Context {A : Type} (after : A -> A -> bool).

Lemma insert_by_perm (x : A) (l : list A) :
  Permutation (insert_by after x l) (x :: l).
Proof.
  induction l as [|y l IH]; simpl.
  - apply Permutation_refl.
  - destruct (after x y).
    + eapply perm_trans; [apply perm_skip, IH | apply perm_swap].
    + apply Permutation_refl.
Qed.

Lemma sort_by_perm (l : list A) : Permutation (sort_by after l) l.
Proof.
  induction l as [|x l IH]; simpl.
  - apply perm_nil.
  - eapply perm_trans; [apply insert_by_perm | apply perm_skip, IH].
Qed.

(** An element is only moved past elements it goes after, so a class of
    elements none of which goes after another keeps its order. *)
Lemma insert_by_filter (P : A -> bool) (x : A) (l : list A) :
  (forall y, P x = true -> P y = true -> after x y = false) ->
  filter P (insert_by after x l) = filter P (x :: l).
Proof.
  intros HP. induction l as [|y l IH]; [reflexivity|].
  simpl. destruct (after x y) eqn:E; [|reflexivity].
  simpl. rewrite IH. simpl.
  destruct (P x) eqn:Px, (P y) eqn:Py; try reflexivity.
  rewrite (HP y eq_refl Py) in E. discriminate.
Qed.

Lemma sort_by_filter (P : A -> bool) (l : list A) :
  (forall x y, P x = true -> P y = true -> after x y = false) ->
  filter P (sort_by after l) = filter P l.
Proof.
  intros HP. induction l as [|x l IH]; [reflexivity|].
  simpl. rewrite insert_by_filter by (intros y; apply HP).
  simpl. now rewrite IH.
Qed.

End SortBy.

Section SortedDesc.
Context {A : Type} (key : A -> Z).

Lemma insert_desc_sorted (x : A) (l : list A) :
  StronglySorted (ge_key key) l ->
  StronglySorted (ge_key key) (insert_by (fun x y => (key x <? key y)%Z) x l).
Proof.
  induction 1 as [|y l Hs IH Hy]; simpl.
  - repeat constructor.
  - destruct (key x <? key y)%Z eqn:E.
    + apply Z.ltb_lt in E. constructor; [exact IH|].
      eapply Permutation_Forall;
        [apply Permutation_sym, insert_by_perm|].
      constructor; [unfold ge_key; lia | exact Hy].
    + apply Z.ltb_ge in E. constructor; [now constructor|].
      constructor; [exact E|].
      eapply Forall_impl; [|exact Hy]. unfold ge_key. intros z Hz. lia.
Qed.

(** Larger counts first. *)
Lemma sorted_desc_sorted (l : list A) : StronglySorted (ge_key key) (sorted_desc key l).
Proof.
  unfold sorted_desc. induction l as [|x l IH]; simpl.
  - constructor.
  - now apply insert_desc_sorted.
Qed.

Lemma sorted_desc_perm (l : list A) : Permutation (sorted_desc key l) l.
Proof. apply sort_by_perm. Qed.

(** Equal counts keep the order they had. *)
Lemma sorted_desc_stable (c : Z) (l : list A) :
  filter (fun a => (key a =? c)%Z) (sorted_desc key l)
  = filter (fun a => (key a =? c)%Z) l.
Proof.
  apply sort_by_filter. intros x y Hx Hy.
  apply Z.eqb_eq in Hx, Hy. apply Z.ltb_ge. lia.
Qed.

(** A list whose counts are all equal is left as it is. *)
Lemma sorted_desc_constant (c : Z) (l : list A) :
  Forall (fun a => key a = c) l -> sorted_desc key l = l.
Proof.
  intros H.
  assert (E : forall l', Forall (fun a => key a = c) l' ->
                         filter (fun a => (key a =? c)%Z) l' = l').
  { induction 1 as [|a l' Ha _ IH]; simpl; [reflexivity|].
    apply Z.eqb_eq in Ha. now rewrite Ha, IH. }
  rewrite <- (E (sorted_desc key l)).
  - rewrite sorted_desc_stable. now apply E.
  - eapply Permutation_Forall; [apply Permutation_sym, sorted_desc_perm | exact H].
Qed.

End SortedDesc.

Lemma dict_set_fresh {V : Type} (k : string) (v : V) (d : dict V) :
  ~ In k (map fst d) -> dict_set k v d = d ++ [(k, v)].
Proof.
  induction d as [|[k' v'] d IH]; simpl; intros H; [reflexivity|].
  destruct (String.eqb k' k) eqn:E.
  - apply String.eqb_eq in E. tauto.
  - f_equal. apply IH. tauto.
Qed.

(** Filling a dictionary from a table with distinct names lists the table's
    entries in its order. *)
Lemma fold_dict_set {K V : Type} (f : K -> V) (table : list (string * K)) (acc : dict V) :
  NoDup (map fst acc ++ map fst table) ->
  fold_left (fun (d : dict V) '(name, k) => dict_set name (f k) d) table acc
  = acc ++ map (fun entry => (fst entry, f (snd entry))) table.
Proof.
  revert acc. induction table as [|[name k] table IH]; intros acc H; simpl.
  - now rewrite app_nil_r.
  - rewrite dict_set_fresh.
    + rewrite IH.
      * now rewrite <- app_assoc.
      * rewrite map_app, <- app_assoc. exact H.
    + simpl in H. apply NoDup_remove_2 in H.
      intros Hin. apply H. apply in_or_app. now left.
Qed.

Lemma sum_from (l : list Z) (a : Z) :
  fold_left Z.add l a = (a + fold_left Z.add l 0)%Z.
Proof.
  revert a. induction l as [|x l IH]; intros a; simpl; [lia|].
  rewrite (IH (a + x)%Z), (IH x). lia.
Qed.

Lemma sum_nonneg (l : list Z) : Forall (fun x => 0 <= x)%Z l -> (0 <= sum l)%Z.
Proof.
  unfold sum. induction 1 as [|x l Hx _ IH]; simpl; [lia|].
  rewrite sum_from. lia.
Qed.

(** ** Counting occurrences *)

Module CountFacts.
Import PyStr.

Lemma count_from_nonneg (sub s : string) (skip : nat) : (0 <= count_from sub s skip)%Z.
Proof.
  revert skip. induction s as [|c s IH]; intros skip; cbn [count_from]; [lia|].
  destruct skip; [|apply IH].
  destruct (strip_prefix sub (String c s)); [|apply IH].
  specialize (IH (String.length sub - 1)%nat). lia.
Qed.

Lemma count_nonneg (sub s : string) : (0 <= count sub s)%Z.
Proof.
  unfold count. destruct sub; [|apply count_from_nonneg].
  pose proof (Zle_0_nat (String.length s)). lia.
Qed.

Lemma count_from_drop (sub s : string) (skip : nat) :
  count_from sub s skip = count_from sub (drop skip s) 0.
Proof.
  revert skip. induction s as [|c s IH]; intros [|k]; try reflexivity.
  simpl drop. rewrite <- IH. reflexivity.
Qed.

Lemma strip_prefix_drop (p s r : string) :
  strip_prefix p s = Some r -> r = drop (String.length p) s.
Proof.
  revert s. induction p as [|a p IH]; intros s H; simpl in *.
  - inversion H. now destruct s.
  - destruct s as [|b s]; [discriminate|].
    destruct (Ascii.eqb a b); [|discriminate]. now apply IH.
Qed.

(** The scan counts 0 when the phrase does not occur, and otherwise one more
    than in the text after its first occurrence: occurrences are taken left
    to right and never overlap. *)
Lemma count_partition (sub s : string) :
  sub <> EmptyString ->
  count sub s =
    match partition sub s with
    | Some (_, rest) => (1 + count sub rest)%Z
    | None => 0%Z
    end.
Proof.
  intros Hsub. destruct sub as [|a p]; [congruence|]. clear Hsub.
  unfold count. induction s as [|c s IH].
  - reflexivity.
  - cbn [count_from partition].
    destruct (strip_prefix (String a p) (String c s)) eqn:E.
    + rewrite count_from_drop. apply strip_prefix_drop in E.
      subst s0. do 2 f_equal. simpl. now rewrite ?Nat.sub_0_r.
    + rewrite IH. now destruct (partition (String a p) s) as [[u w]|].
Qed.

Example count_overlapping : count "aa" "aaaaa" = 2%Z.
Proof. reflexivity. Qed.

Example count_inside_words : count "late" "plates, later, late" = 3%Z.
Proof. reflexivity. Qed.

End CountFacts.

(** ** Theme extractor *)

Ltac distinct_names :=
  repeat constructor; simpl; intros H;
  repeat (destruct H as [H|H]; [discriminate|]); exact H.

Lemma positive_themes_distinct : NoDup (map fst positive_themes).
Proof. distinct_names. Qed.

Lemma negative_themes_distinct : NoDup (map fst negative_themes).
Proof. distinct_names. Qed.

(** The table the extractor ranks: each theme of the sentiment's table, in
    the table's order, with the occurrences of its keywords in the corpus. *)
Lemma extract_review_themes_unfold (df : DataFrame) (sentiment : string) :
  extract_review_themes df sentiment
  = sorted_desc snd
      (map (fun theme =>
              (fst theme,
               theme_count
                 (PyStr.lower (PyStr.join " " (sentiment_reviews df sentiment)))
                 (snd theme)))
           (if String.eqb sentiment "positive" then positive_themes else negative_themes)).
Proof.
  unfold extract_review_themes, items.
  destruct (String.eqb sentiment "positive");
    rewrite (fold_dict_set (theme_count _)); try reflexivity; simpl app.
  - apply positive_themes_distinct.
  - apply negative_themes_distinct.
Qed.

Lemma theme_count_nonneg (all_text : string) (keywords : list string) :
  (0 <= theme_count all_text keywords)%Z.
Proof.
  apply sum_nonneg. apply Forall_forall. intros x Hx.
  apply in_map_iff in Hx. destruct Hx as (kw & <- & _).
  apply CountFacts.count_nonneg.
Qed.

(** C5. For the flag "positive" the extractor reads the rows rated 8 or
    more, for any other flag ("negative" among them) the rows rated 3 or
    less; their texts, a missing one as the empty text, are joined with a
    space and lowered; each theme of the flag's table gets the sum of its
    keywords' occurrence counts, an occurrence count being 0 when the phrase
    is absent and otherwise one more than the count after its first
    occurrence; the pairs are returned with larger counts first and equal
    counts in the table's order. The result is a function of the table and
    the flag, so two runs agree. *)
Theorem extract_review_themes_ranked (df : DataFrame) (sentiment : string) :
  let positive := String.eqb sentiment "positive" in
  let selected :=
    filter (fun r => if positive then num_ge (Overall_Rating r) (Fin 8)
                     else num_le (Overall_Rating r) (Fin 3)) (rows df) in
  let corpus := PyStr.lower (PyStr.join " " (map (fun r => fillna (Review_text r)) selected)) in
  let counted :=
    map (fun theme => (fst theme, sum (map (fun kw => PyStr.count kw corpus) (snd theme))))
        (if positive then positive_themes else negative_themes) in
  let ranked := extract_review_themes df sentiment in
  Permutation ranked counted /\
  StronglySorted (ge_key snd) ranked /\
  (forall c : Z,
      filter (fun p => (snd p =? c)%Z) ranked = filter (fun p => (snd p =? c)%Z) counted) /\
  (forall sub s : string,
      sub <> EmptyString ->
      PyStr.count sub s =
        match PyStr.partition sub s with
        | Some (_, rest) => (1 + PyStr.count sub rest)%Z
        | None => 0%Z
        end) /\
  String.eqb "positive" "positive" = true /\
  String.eqb "negative" "positive" = false.
Proof.
  intros positive selected corpus counted ranked.
  assert (E : ranked = sorted_desc snd counted).
  { unfold ranked. rewrite extract_review_themes_unfold.
    unfold counted, corpus, selected, sentiment_reviews, theme_count.
    fold positive. now destruct positive. }
  rewrite E. repeat split.
  - apply sorted_desc_perm.
  - apply (sorted_desc_sorted snd).
  - intros c. apply (sorted_desc_stable snd).
  - apply CountFacts.count_partition.
Qed.

(** C10. Whatever the table and the flag, the extractor returns seven pairs,
    one for each theme of the flag's table, with counts that are not
    negative; when no row is selected every count is 0 and the pairs stand in
    the table's order. *)
Theorem extract_review_themes_shape (df : DataFrame) (sentiment : string) :
  let themes :=
    if String.eqb sentiment "positive" then positive_themes else negative_themes in
  let ranked := extract_review_themes df sentiment in
  List.length ranked = 7%nat /\
  Permutation (map fst ranked) (map fst themes) /\
  NoDup (map fst ranked) /\
  Forall (fun p => (0 <= snd p)%Z) ranked /\
  (sentiment_reviews df sentiment = [] ->
   ranked = map (fun theme => (fst theme, 0%Z)) themes).
Proof.
  intros themes ranked.
  pose (counted :=
    map (fun theme =>
           (fst theme,
            theme_count (PyStr.lower (PyStr.join " " (sentiment_reviews df sentiment)))
                        (snd theme))) themes).
  assert (E : ranked = sorted_desc snd counted)
    by apply extract_review_themes_unfold.
  assert (P : Permutation ranked counted)
    by (rewrite E; apply sorted_desc_perm).
  assert (N : map fst counted = map fst themes).
  { unfold counted. rewrite map_map. reflexivity. }
  assert (D : NoDup (map fst themes)).
  { unfold themes. destruct (String.eqb sentiment "positive");
      [apply positive_themes_distinct | apply negative_themes_distinct]. }
  repeat split.
  - rewrite (Permutation_length P). unfold counted. rewrite length_map.
    unfold themes. now destruct (String.eqb sentiment "positive").
  - rewrite <- N. now apply Permutation_map.
  - eapply Permutation_NoDup; [|exact D].
    rewrite <- N. apply Permutation_sym. now apply Permutation_map.
  - eapply Permutation_Forall; [apply Permutation_sym, P|].
    apply Forall_forall. intros p Hp. unfold counted in Hp.
    apply in_map_iff in Hp. destruct Hp as (th & <- & _).
    apply theme_count_nonneg.
  - intros Hnone. rewrite E. unfold counted. rewrite Hnone.
    unfold themes. now destruct (String.eqb sentiment "positive").
Qed.

Example extract_review_themes_sample :
  extract_review_themes sample_df "positive"
  = [("Staff Service", 2); ("Food & Beverage", 2); ("Efficiency", 1);
     ("Comfort", 0); ("Value", 0); ("Entertainment", 0); ("Airport Experience", 0)]%Z.
Proof. vm_compute. reflexivity. Qed.

(** ** The filter stage *)

Lemma filter_filter {A : Type} (P Q : A -> bool) (l : list A) :
  filter Q (filter P l) = filter (fun a => P a && Q a) l.
Proof.
  induction l as [|a l IH]; simpl; [reflexivity|].
  destruct (P a); simpl; [destruct (Q a)|]; now rewrite IH.
Qed.

Lemma select_select (P Q : Review -> bool) (df : DataFrame) :
  select Q (select P df) = select (fun r => P r && Q r) df.
Proof. unfold select, with_rows. simpl. now rewrite filter_filter. Qed.

(** A selector left on "All" filters nothing. *)
Lemma select_unless_all (selected : string) (col : Review -> option string) (df : DataFrame) :
  (if negb (String.eqb selected "All")
   then select (fun r => cell_eqb (col r) selected) df
   else df)
  = select (fun r => selector_ok selected (col r)) df.
Proof.
  unfold selector_ok. destruct (String.eqb selected "All"); simpl; [|reflexivity].
  unfold select, with_rows. rewrite filter_true. now destruct df.
Qed.

Lemma apply_selectors_select (ui : Sidebar) (df : DataFrame) :
  apply_selectors ui df
  = select (fun r => selector_ok (selected_airline ui) (Airline_Name r) &&
                     selector_ok (selected_seat_class ui) (Seat_Type r) &&
                     selector_ok (selected_traveler_type ui) (Type_Of_Traveller r)) df.
Proof.
  unfold apply_selectors.
  rewrite (select_unless_all (selected_airline ui) Airline_Name).
  rewrite (select_unless_all (selected_seat_class ui) Seat_Type).
  rewrite (select_unless_all (selected_traveler_type ui) Type_Of_Traveller).
  rewrite !select_select. unfold select. f_equal.
  apply filter_ext. intros r. now rewrite Bool.andb_assoc.
Qed.

Lemma rating_within_iff (lo hi : Q) (rating : number) :
  rating_within lo hi rating = true <->
  exists q, rating = Fin q /\ (lo <= q /\ q <= hi)%Q.
Proof.
  unfold rating_within, num_ge. rewrite Bool.andb_true_iff. split.
  - intros [H1 H2]. destruct rating as [q| | |]; simpl in *; try discriminate.
    exists q. rewrite <- !Qle_bool_iff. auto.
  - intros (q & -> & H1 & H2). simpl. rewrite !Qle_bool_iff. auto.
Qed.

(** C6, as the code has it: the advanced filter stage returns, in the base
    table's order, exactly the rows that satisfy every selector not left on
    "All" and whose rating is a number within the inclusive range. With every
    control at its default these are the rows rated from 1 to 10, which is
    the whole base table when every rating is such a number. *)
Theorem create_interactive_filters_matches (ui : Sidebar) (df : DataFrame) :
  let filtered_df := fst (Advanced.create_interactive_filters ui df) in
  let by_default := fst (Advanced.create_interactive_filters Advanced.default_sidebar df) in
  filtered_df = select (matches ui) df /\
  (forall r, In r (rows filtered_df) <-> In r (rows df) /\ matches ui r = true) /\
  by_default = select (fun r => rating_within 1 10 (Overall_Rating r)) df /\
  ((forall r, In r (rows df) ->
      exists q, Overall_Rating r = Fin q /\ (1 <= q /\ q <= 10)%Q) ->
   by_default = df).
Proof.
  intros filtered_df by_default.
  assert (E : forall ui', fst (Advanced.create_interactive_filters ui' df)
                          = select (matches ui') df).
  { intros ui'. unfold Advanced.create_interactive_filters, sbind, get, ret. simpl.
    rewrite apply_selectors_select, select_select. reflexivity. }
  assert (D : by_default = select (fun r => rating_within 1 10 (Overall_Rating r)) df).
  { unfold by_default. rewrite E. reflexivity. }
  split; [apply E|]. split; [|split; [exact D|]].
  - intros r. unfold filtered_df. rewrite E. simpl. apply filter_In.
  - intros H. rewrite D. unfold select, with_rows.
    rewrite forallb_filter_id; [now destruct df|].
    apply forallb_forall. intros r Hr. apply rating_within_iff. now apply H.
Qed.

(** The sample table, rated 9 and 2, passes the default controls whole. *)
Lemma create_interactive_filters_matches_witness :
  fst (Advanced.create_interactive_filters Advanced.default_sidebar sample_df) = sample_df.
Proof.
  refine (proj2 (proj2 (proj2
    (create_interactive_filters_matches Advanced.default_sidebar sample_df))) _).
  intros r [<-|[<-|[]]]; simpl.
  - exists 9%Q. split; [reflexivity | split; discriminate].
  - exists 2%Q. split; [reflexivity | split; discriminate].
Defined.

(** C6, as stated, fails on a table with an unrated row: with every control
    at its default the range filter still runs, and the row is dropped. *)
Lemma default_filters_drop_unrated :
  List.length (rows unrated_df) = 1%nat /\
  rows (fst (Advanced.create_interactive_filters Advanced.default_sidebar unrated_df)) = [] /\
  fst (Advanced.create_interactive_filters Advanced.default_sidebar unrated_df) <> unrated_df.
Proof. repeat split. discriminate. Qed.

Example filter_conjunction :
  map Airline_Name
    (rows (fst (Advanced.create_interactive_filters
                  {| selected_airline := "Acme";
                     selected_seat_class := "Economy Class";
                     selected_traveler_type := "All";
                     rating_range := (1, 10)%Q |} sample_df)))
  = [Some "Acme"].
Proof. reflexivity. Qed.

(** ** Grouped summary tables *)

Lemma In_firstn {A : Type} (n : nat) (x : A) (l : list A) :
  In x (firstn n l) -> In x l.
Proof.
  revert l. induction n as [|n IH]; intros [|a l]; simpl; try tauto.
  intros [H|H]; [now left | right; now apply IH].
Qed.

Lemma count_notna_le (l : list number) : (count_notna l <= Z.of_nat (List.length l))%Z.
Proof. unfold count_notna. apply inj_le, filter_length_le. Qed.

(** A row that survives the threshold stands for a group with at least that
    many rated rows, hence at least that many rows. *)
Lemma min_sample_kept (agg : string * list Review -> Summary)
  (col : Review -> option string) (n : Z) (df : DataFrame) (s : Summary) :
  (forall g, group (agg g) = fst g) ->
  (forall g, Review_Count (agg g) = count_notna (map Overall_Rating (snd g))) ->
  In s (min_sample n (map agg (groupby col df))) ->
  (n <= Review_Count s <= group_size col df (group s))%Z.
Proof.
  intros Hgroup Hcount Hs. apply filter_In in Hs. destruct Hs as [Hs Hn].
  apply Z.leb_le in Hn. split; [exact Hn|].
  apply in_map_iff in Hs. destruct Hs as ([k g] & <- & Hg).
  unfold groupby in Hg. apply in_map_iff in Hg. destruct Hg as (k' & Hk & _).
  inversion Hk; subst. rewrite Hgroup, Hcount. simpl.
  unfold group_size. etransitivity; [apply count_notna_le|].
  rewrite length_map. lia.
Qed.

Section Views.
Context {pd : Pandas}.

Lemma In_sort_desc {A : Type} (col : A -> number) (x : A) (l : list A) :
  In x (pd_sort_desc col l) -> In x l.
Proof. apply Permutation_in, pd_sort_desc_perm. Qed.

Lemma run_view_kept (v : View) (df : DataFrame) (s : Summary) :
  In s (run_view v df) ->
  (view_threshold v <= Review_Count s <= group_size (view_column v) df (group s))%Z.
Proof.
  destruct v; simpl; intros H;
    try apply In_firstn in H; apply In_sort_desc in H;
    (eapply min_sample_kept; [| |exact H]; reflexivity).
Qed.

(** C7. In each of the six views that have a threshold (5, 10 or 20), a
    group with fewer rows than the threshold has no row in the output; every
    row of the output counts at least the threshold; and the output is the
    sorted table, or its head, of what the threshold kept. *)
Theorem min_sample_drops_small_groups (v : View) (df : DataFrame) :
  (forall g : string,
      (group_size (view_column v) df g < view_threshold v)%Z ->
      ~ In g (map group (run_view v df))) /\
  In (view_threshold v) [5; 10; 20]%Z /\
  Forall (fun s => (view_threshold v <= Review_Count s)%Z) (run_view v df) /\
  exists table : list Summary,
    let kept := min_sample (view_threshold v) table in
    Forall (fun s => (view_threshold v <= group_size (view_column v) df (group s))%Z) kept /\
    (run_view v df = pd_sort_desc Avg_Rating kept \/
     run_view v df = firstn 10 (pd_sort_desc Avg_Rating kept)).
Proof.
  split; [|split; [|split]].
  - intros g Hsmall Hin. apply in_map_iff in Hin. destruct Hin as (s & <- & Hs).
    apply run_view_kept in Hs. lia.
  - destruct v; simpl; tauto.
  - apply Forall_forall. intros s Hs. now apply run_view_kept in Hs.
  - destruct v; simpl;
      (eexists; split; [|first [left; reflexivity | right; reflexivity]]);
      apply Forall_forall; intros s Hs;
      (eapply min_sample_kept in Hs; [simpl in Hs; lia | reflexivity | reflexivity]).
Qed.

End Views.

(** The sample's airline with nineteen rows is not in the basic airline
    view, whose threshold is 20. *)
Lemma min_sample_drops_small_groups_witness :
  ~ In "Acme" (map group (@run_view exact_pandas BasicAirlineMetrics two_airlines_df)).
Proof.
  refine (proj1 (@min_sample_drops_small_groups exact_pandas
                   BasicAirlineMetrics two_airlines_df) "Acme" _).
  vm_compute. reflexivity.
Defined.

Example basic_airline_metrics_sample :
  map (fun s => (group s, Review_Count s))
      (@run_view exact_pandas BasicAirlineMetrics two_airlines_df)
  = [("Zenith", 20%Z)].
Proof. vm_compute. reflexivity. Qed.

(** ** The base table under the filter stage *)

(** The advanced filter stage leaves the base table as it found it... *)
Lemma advanced_filters_frame (ui : Sidebar) (df : DataFrame) :
  snd (Advanced.create_interactive_filters ui df) = df.
Proof. reflexivity. Qed.

(** ... and so does any sequence of its runs. *)
Lemma advanced_run_filters_frame (uis : list Sidebar) (df : DataFrame) :
  snd (run_filters Advanced.create_interactive_filters uis df) = df.
Proof.
  induction uis as [|ui uis IH]; [reflexivity|].
  simpl. unfold sbind at 1.
  destruct (Advanced.create_interactive_filters ui df) as [filtered df'] eqn:E.
  assert (df' = df) by (change df' with (snd (filtered, df')); now rewrite <- E).
  subst df'. unfold sbind.
  destruct (run_filters Advanced.create_interactive_filters uis df) as [rest df'] eqn:E'.
  simpl in IH. now subst.
Qed.

Section BasicFilters.
Context {pd : Pandas}.

(** The basic filter stage writes the parsed dates into the base table when
    the table has a [Review Date] column. *)
Lemma basic_filters_base (ui : Sidebar) (df : DataFrame) :
  snd (Basic.create_interactive_filters ui df)
  = if has_Review_Date df
    then with_rows df (map (Basic.set_Review_Date Basic.to_datetime) (rows df))
    else df.
Proof.
  unfold Basic.create_interactive_filters, sbind, get, put, ret.
  simpl. now destruct (has_Review_Date df).
Qed.

(** It keeps the number of rows. *)
Lemma basic_filters_row_count (ui : Sidebar) (df : DataFrame) :
  List.length (rows (snd (Basic.create_interactive_filters ui df)))
  = List.length (rows df).
Proof.
  rewrite basic_filters_base. destruct (has_Review_Date df); [|reflexivity].
  simpl. apply length_map.
Qed.

(** C8. The basic filter stage changes the base table: on a table with a
    [Review Date] column it overwrites the column with parsed dates before
    it copies the table, so the two rows of the sample, which held date
    text, hold none afterwards, whatever the selections and however dates
    parse. The row count stays 2. *)
Theorem basic_filters_rewrite_base (ui : Sidebar) :
  let base := snd (Basic.create_interactive_filters ui sample_df) in
  base <> sample_df /\
  map Review_Date (rows sample_df)
    = [DateText "2nd March 2021"; DateText "3rd May 2022"] /\
  Forall (fun c => forall s, c <> DateText s) (map Review_Date (rows base)) /\
  List.length (rows base) = List.length (rows sample_df).
Proof.
  intros base.
  assert (D : Forall (fun c => forall s, c <> DateText s) (map Review_Date (rows base))).
  { unfold base. rewrite basic_filters_base. simpl.
    repeat constructor; intros s; unfold Basic.to_datetime;
      destruct (pd_to_datetime _); discriminate. }
  split; [|split; [reflexivity | split; [exact D|]]].
  - intros E. rewrite E in D. simpl in D.
    apply Forall_inv in D. now apply (D "2nd March 2021").
  - apply basic_filters_row_count.
Qed.

End BasicFilters.

(** * Further properties *)

(** ** More on strings *)

Module PyStrMore.
Import PyStr.
Local Open Scope string_scope.

Lemma append_assoc (a b c : string) : (a ++ b) ++ c = a ++ b ++ c.
Proof. induction a as [|x a IH]; simpl; [reflexivity | now rewrite IH]. Qed.

Lemma append_nil_r (a : string) : a ++ "" = a.
Proof. induction a as [|x a IH]; simpl; [reflexivity | now rewrite IH]. Qed.

Lemma length_append (a b : string) :
  String.length (a ++ b) = (String.length a + String.length b)%nat.
Proof. induction a as [|x a IH]; simpl; [reflexivity | now rewrite IH]. Qed.

Lemma lower_append (a b : string) : lower (a ++ b) = lower a ++ lower b.
Proof. induction a as [|x a IH]; simpl; [reflexivity | now rewrite IH]. Qed.

Lemma lower_char_idem (c : ascii) : lower_char (lower_char c) = lower_char c.
Proof. destruct c as [[] [] [] [] [] [] [] []]; reflexivity. Qed.

Lemma lower_idem (s : string) : lower (lower s) = lower s.
Proof.
  induction s as [|c s IH]; simpl; [reflexivity|].
  now rewrite lower_char_idem, IH.
Qed.

Lemma contains_false_partition (sep s : string) :
  contains sep s = false <-> partition sep s = None.
Proof.
  split; intros H.
  - destruct (partition sep s) as [[a b]|] eqn:E; [|reflexivity].
    assert (C : contains sep s = true)
      by (apply PyStrFacts.partition_contains; eauto).
    congruence.
  - destruct (contains sep s) eqn:C; [|reflexivity].
    apply PyStrFacts.partition_contains in C. destruct C as (a & b & C). congruence.
Qed.

(** A phrase absent from the lowered text is absent from the text, when the
    phrase is in lower case already. *)
Lemma contains_lower_false (sep s : string) :
  lower sep = sep -> contains sep (lower s) = false -> contains sep s = false.
Proof.
  intros Hsep H. destruct (contains sep s) eqn:C; [|reflexivity].
  apply PyStrFacts.contains_lower in C. rewrite Hsep in C. congruence.
Qed.

(** A prefix that fits in the first part of a text is decided there. *)
Lemma strip_prefix_none_short (p y z : string) :
  (String.length p <= String.length y)%nat ->
  strip_prefix p y = None -> strip_prefix p (y ++ z) = None.
Proof.
  revert y. induction p as [|a p IH]; intros y Hlen H; simpl in *; [discriminate|].
  destruct y as [|b y]; simpl in *; [lia|].
  destruct (Ascii.eqb a b); [|reflexivity].
  apply IH; [lia | exact H].
Qed.

Lemma strip_prefix_none_extend (p x y z : string) :
  (String.length p <= String.length x + String.length y)%nat ->
  strip_prefix p (x ++ y) = None -> strip_prefix p (x ++ y ++ z) = None.
Proof.
  intros Hlen H. rewrite <- append_assoc.
  apply strip_prefix_none_short; [rewrite length_append; lia | exact H].
Qed.

(** When the separator does not occur before the place it is written at,
    [partition] cuts there. [sep0] is the separator without its last
    character [c]. *)
Lemma partition_at (sep0 : string) (c : ascii) (a b : string) :
  contains (sep0 ++ String c "") (a ++ sep0) = false ->
  partition (sep0 ++ String c "") (a ++ (sep0 ++ String c "") ++ b) = Some (a, b).
Proof.
  induction a as [|x a IH]; intros H.
  - simpl append at 2.
    destruct (sep0 ++ String c "") eqn:E;
      [destruct sep0; discriminate|].
    rewrite <- E.
    assert (P : strip_prefix (sep0 ++ String c "") ((sep0 ++ String c "") ++ b) = Some b)
      by apply PyStrFacts.strip_prefix_complete.
    destruct ((sep0 ++ String c "") ++ b) eqn:E'; simpl; now rewrite P.
  - simpl in H. simpl append at 2.
    destruct (strip_prefix (sep0 ++ String c "") (String x (a ++ sep0))) eqn:P;
      [discriminate|].
    assert (P' : strip_prefix (sep0 ++ String c "")
                   (String x (a ++ (sep0 ++ String c "") ++ b)) = None).
    { change (String x (a ++ (sep0 ++ String c "") ++ b))
        with (String x a ++ (sep0 ++ String c "") ++ b).
      rewrite (append_assoc sep0 (String c "") b).
      apply strip_prefix_none_extend; [|exact P].
      rewrite length_append. simpl. lia. }
    cbn [partition]. rewrite P'. now rewrite (IH H).
Qed.

Lemma lstrip_starts_clean (s : string) : starts_clean (lstrip s).
Proof.
  induction s as [|c s IH]; simpl; [exact I|].
  destruct (isspace c) eqn:E; [exact IH | exact E].
Qed.

Lemma lstrip_fix (s : string) : starts_clean s -> lstrip s = s.
Proof. destruct s as [|c s]; simpl; [reflexivity|]. now intros ->. Qed.

Lemma rstrip_starts_clean (s : string) : starts_clean s -> starts_clean (rstrip s).
Proof.
  destruct s as [|c s]; simpl; [exact id|]. intros H.
  destruct (rstrip s); [rewrite H|]; exact H.
Qed.

Lemma rstrip_idem (s : string) : rstrip (rstrip s) = rstrip s.
Proof.
  induction s as [|c s IH]; simpl; [reflexivity|].
  destruct (rstrip s) as [|d r] eqn:E.
  - destruct (isspace c) eqn:Ec; simpl; [reflexivity | now rewrite Ec].
  - cbn [rstrip]. cbn [rstrip] in IH. now rewrite IH.
Qed.

(** Trimming a trimmed text changes nothing. *)
Lemma strip_idem (s : string) : strip (strip s) = strip s.
Proof.
  unfold strip.
  rewrite (lstrip_fix (rstrip (lstrip s)))
    by apply rstrip_starts_clean, lstrip_starts_clean.
  apply rstrip_idem.
Qed.

Lemma length_lstrip (s : string) : (String.length (lstrip s) <= String.length s)%nat.
Proof.
  induction s as [|c s IH]; simpl; [lia|]. destruct (isspace c); simpl; lia.
Qed.

Lemma length_rstrip (s : string) : (String.length (rstrip s) <= String.length s)%nat.
Proof.
  induction s as [|c s IH]; simpl; [lia|].
  destruct (rstrip s); [destruct (isspace c)|]; simpl in *; lia.
Qed.

(** A text that trimming leaves alone has no whitespace at either end. *)
Lemma strip_fix (s : string) : strip s = s -> lstrip s = s /\ rstrip s = s.
Proof.
  intros H. unfold strip in H.
  assert (L : lstrip s = s).
  { destruct s as [|c s]; [reflexivity|]. simpl in *.
    destruct (isspace c); [|reflexivity].
    pose proof (length_rstrip (lstrip s)). pose proof (length_lstrip s).
    rewrite H in *. simpl in *. lia. }
  rewrite L in H. now split.
Qed.

Lemma lstrip_append (a b : string) :
  a <> "" -> lstrip a = a -> lstrip (a ++ b) = a ++ b.
Proof.
  destruct a as [|c a]; [congruence|]. intros _. simpl.
  destruct (isspace c); [|reflexivity].
  intros H. pose proof (length_lstrip a). rewrite H in *. simpl in *. lia.
Qed.

Lemma rstrip_nonempty (s : string) : s <> "" -> rstrip s = s -> rstrip s <> "".
Proof. intros H ->. exact H. Qed.

Lemma rstrip_append (a b : string) :
  b <> "" -> rstrip b = b -> rstrip (a ++ b) = a ++ b.
Proof.
  intros Hb H. induction a as [|c a IH]; simpl; [exact H|].
  rewrite IH. destruct (a ++ b) eqn:E; [|reflexivity].
  destruct a; simpl in E; [congruence | discriminate].
Qed.

End PyStrMore.

(** ** More on the route parser *)

Section RouteMore.
Import PyStr.
Local Open Scope string_scope.

(** X1. The routes on which the parser raises are exactly those where a
    separator is found in the lowered text and not in the text as written:
    " via " somewhere in the trimmed route, or " to " in the part before the
    first " via ". In particular a route without " via " in any case never
    raises. *)
Theorem parse_route_raises_iff (s : string) :
  parse_route (Some s) = Raise ValueError <->
  (contains " via " (lower (strip s)) = true /\ contains " via " (strip s) = false) \/
  (exists main_route via_part,
      partition " via " (strip s) = Some (main_route, via_part) /\
      contains " to " (lower main_route) = true /\
      contains " to " main_route = false).
Proof.
  unfold parse_route, split1.
  destruct (contains " via " (lower (strip s))) eqn:Hvia.
  - destruct (partition " via " (strip s)) as [[m v]|] eqn:Pvia; simpl.
    + destruct (contains " to " (lower m)) eqn:Hto.
      * destruct (partition " to " m) as [[o d]|] eqn:Pto; simpl.
        -- split; [discriminate|]. intros [[_ H]|(m' & v' & E & _ & H)].
           ++ apply PyStrMore.contains_false_partition in H. congruence.
           ++ inversion E; subst. apply PyStrMore.contains_false_partition in H.
              congruence.
        -- split; [|reflexivity]. intros _. right. exists m, v.
           repeat split; [exact Hto|].
           now apply PyStrMore.contains_false_partition.
      * split; [discriminate|]. intros [[_ H]|(m' & v' & E & H & _)].
        -- apply PyStrMore.contains_false_partition in H. congruence.
        -- inversion E; subst. congruence.
    + split; [|reflexivity]. intros _. left. split; [reflexivity|].
      now apply PyStrMore.contains_false_partition.
  - assert (R : forall t : route_triple, Return t <> Raise ValueError)
      by (intros t; discriminate).
    split.
    + destruct (contains " to " (lower (strip s)));
        [destruct (partition " to " (strip s)) as [[o d]|]|]; simpl;
        intros H; now apply R in H.
    + intros [[H _]|(m & v & E & _)]; [discriminate|].
      assert (C : contains " via " (strip s) = true)
        by (apply PyStrFacts.partition_contains; eauto).
      assert (C' : contains " via " (lower (strip s)) = true)
        by exact (PyStrFacts.contains_lower " via " _ C).
      congruence.
Qed.

(** X2. A route written as origin, " to ", destination, " via ", via city is
    parsed back into its three parts, when the parts are trimmed, the origin
    and the via city are not empty, and neither separator occurs, in any
    case, before the place it is written at. *)
Theorem parse_route_roundtrip_via (o d v : string) :
  strip o = o -> strip d = d -> strip v = v ->
  o <> "" -> v <> "" ->
  contains " to " (lower (o ++ " to")) = false ->
  contains " via " (lower (o ++ " to " ++ d ++ " via")) = false ->
  parse_route (Some (o ++ " to " ++ d ++ " via " ++ v)) = Return (Some o, Some d, Some v).
Proof.
  intros Ho Hd Hv No Nv Hto Hvia.
  destruct (PyStrMore.strip_fix o Ho) as [Lo _].
  destruct (PyStrMore.strip_fix v Hv) as [_ Rv].
  assert (St : strip (o ++ " to " ++ d ++ " via " ++ v) = o ++ " to " ++ d ++ " via " ++ v).
  { unfold strip. rewrite PyStrMore.lstrip_append by assumption.
    rewrite <- !PyStrMore.append_assoc. now apply PyStrMore.rstrip_append. }
  assert (Pvia : partition " via " (o ++ " to " ++ d ++ " via " ++ v)
                 = Some (o ++ " to " ++ d, v)).
  { rewrite <- (PyStrMore.append_assoc " to " d), <- (PyStrMore.append_assoc o).
    apply (PyStrMore.partition_at " via" " "%char).
    apply (PyStrMore.contains_lower_false " via "); [reflexivity|].
    now rewrite !PyStrMore.append_assoc. }
  assert (Pto : partition " to " (o ++ " to " ++ d) = Some (o, d)).
  { apply (PyStrMore.partition_at " to" " "%char).
    now apply (PyStrMore.contains_lower_false " to "). }
  assert (Cvia : contains " via " (lower (o ++ " to " ++ d ++ " via " ++ v)) = true).
  { apply (PyStrFacts.contains_lower " via "), PyStrFacts.partition_contains. eauto. }
  assert (Cto : contains " to " (lower (o ++ " to " ++ d)) = true).
  { apply (PyStrFacts.contains_lower " to "), PyStrFacts.partition_contains. eauto. }
  unfold parse_route. rewrite St, Cvia, (PyStrFacts.split1_found _ _ _ _ Pvia).
  cbn [bind unpack2]. rewrite Cto, (PyStrFacts.split1_found _ _ _ _ Pto).
  cbn [bind unpack2]. now rewrite Ho, Hd, Hv.
Qed.

(** "New York to San Jose via Los Angeles" *)
Lemma parse_route_roundtrip_via_witness :
  parse_route (Some "New York to San Jose via Los Angeles")
  = Return (Some "New York", Some "San Jose", Some "Los Angeles").
Proof.
  refine (parse_route_roundtrip_via "New York" "San Jose" "Los Angeles"
            eq_refl eq_refl eq_refl _ _ eq_refl eq_refl); discriminate.
Defined.

(** X3. A route written as origin, " to ", destination, with no " via " in
    any case, is parsed back into its two parts and no via city, when the
    parts are trimmed and not empty and " to " does not occur, in any case,
    before the place it is written at. *)
Theorem parse_route_roundtrip_to (o d : string) :
  strip o = o -> strip d = d ->
  o <> "" -> d <> "" ->
  contains " to " (lower (o ++ " to")) = false ->
  contains " via " (lower (o ++ " to " ++ d)) = false ->
  parse_route (Some (o ++ " to " ++ d)) = Return (Some o, Some d, None).
Proof.
  intros Ho Hd No Nd Hto Hvia.
  destruct (PyStrMore.strip_fix o Ho) as [Lo _].
  destruct (PyStrMore.strip_fix d Hd) as [_ Rd].
  assert (St : strip (o ++ " to " ++ d) = o ++ " to " ++ d).
  { unfold strip. rewrite PyStrMore.lstrip_append by assumption.
    rewrite <- !PyStrMore.append_assoc. now apply PyStrMore.rstrip_append. }
  assert (Pto : partition " to " (o ++ " to " ++ d) = Some (o, d)).
  { apply (PyStrMore.partition_at " to" " "%char).
    now apply (PyStrMore.contains_lower_false " to "). }
  assert (Cto : contains " to " (lower (o ++ " to " ++ d)) = true).
  { apply (PyStrFacts.contains_lower " to "), PyStrFacts.partition_contains. eauto. }
  unfold parse_route. rewrite St, Hvia, Cto, (PyStrFacts.split1_found _ _ _ _ Pto).
  simpl. now rewrite Ho, Hd.
Qed.

(** "Kuala Lumpur to Tokyo" *)
Lemma parse_route_roundtrip_to_witness :
  parse_route (Some "Kuala Lumpur to Tokyo")
  = Return (Some "Kuala Lumpur", Some "Tokyo", None).
Proof.
  refine (parse_route_roundtrip_to "Kuala Lumpur" "Tokyo"
            eq_refl eq_refl _ _ eq_refl eq_refl); discriminate.
Defined.

(** X4. Whatever the parser returns is trimmed: no component that is present
    has whitespace at either end. *)
Theorem parse_route_trimmed (r : option string) (o d v : option string) :
  parse_route r = Return (o, d, v) ->
  trimmed_or_missing o /\ trimmed_or_missing d /\ trimmed_or_missing v.
Proof.
  intros H. destruct r as [s|]; unfold parse_route in H.
  - route_cases H; try discriminate; inversion H; subst; simpl;
      repeat split; try apply PyStrMore.strip_idem.
  - inversion H; subst. simpl. tauto.
Qed.

(** A route with spaces around every part. *)
Lemma parse_route_trimmed_witness :
  trimmed_or_missing (Some "LON") /\ trimmed_or_missing (Some "NYC") /\
  trimmed_or_missing (Some "DXB").
Proof.
  exact (parse_route_trimmed (Some "  LON  to  NYC  via  DXB  ") _ _ _ eq_refl).
Defined.

End RouteMore.

(** ** The loader *)

Lemma derive_returns (b : bool) (raw : RawReview) (r : Review) :
  derive b raw = Return r -> loaded_from b raw r.
Proof.
  unfold derive. destruct (parse_route (raw_Route raw)) as [[[o d] v]|e] eqn:E;
    simpl; [|discriminate].
  intros H. inversion H; subst. unfold loaded_from. simpl. now repeat split.
Qed.

Lemma derive_raises (b : bool) (raw : RawReview) (e : exn) :
  derive b raw = Raise e <-> parse_route (raw_Route raw) = Raise ValueError.
Proof.
  unfold derive. destruct (parse_route (raw_Route raw)) as [[[o d] v]|e'] eqn:E; simpl.
  - split; discriminate.
  - destruct e, e'. split; reflexivity.
Qed.

Lemma derive_all_returns (b : bool) (l : list RawReview) (rs : list Review) :
  derive_all b l = Return rs -> Forall2 (loaded_from b) l rs.
Proof.
  revert rs. induction l as [|raw l IH]; intros rs; simpl.
  - intros H. inversion H. constructor.
  - destruct (derive b raw) as [r|e] eqn:E; simpl; [|discriminate].
    destruct (derive_all b l) as [rs'|e] eqn:E'; simpl; [|discriminate].
    intros H. inversion H; subst. constructor; [now apply derive_returns | now apply IH].
Qed.

Lemma derive_all_raises (b : bool) (l : list RawReview) :
  (exists e, derive_all b l = Raise e) <->
  Exists (fun raw => parse_route (raw_Route raw) = Raise ValueError) l.
Proof.
  induction l as [|raw l IH]; simpl.
  - split; [intros [e H]; discriminate | intros H; inversion H].
  - destruct (derive b raw) as [r|e] eqn:E; simpl.
    + destruct (derive_all b l) as [rs|e] eqn:E'; simpl.
      * split; [intros [e H]; discriminate|].
        intros H. inversion H as [? ? H1|? ? H1]; subst.
        -- apply (derive_raises b raw ValueError) in H1. congruence.
        -- apply IH in H1. destruct H1 as [e H1]. discriminate.
      * split; [|eauto]. intros _. apply Exists_cons_tl, IH. eauto.
    + split; [|eauto]. intros _. apply Exists_cons_hd.
      now apply (derive_raises b raw e).
Qed.




(** ** More on the segments *)

Lemma segment_rank_le_3 (label : string) : (segment_rank label <= 3)%nat.
Proof.
  unfold segment_rank.
  repeat match goal with |- context [String.eqb ?a ?b] => destruct (String.eqb a b) end; lia.
Qed.

(** X7. The segment never goes down when the rating goes up: of two ratings
    the larger gets the same or a higher segment. *)
Theorem categorize_satisfaction_monotone (r1 r2 : number) :
  num_le r1 r2 = true ->
  (segment_rank (categorize_satisfaction r1)
   <= segment_rank (categorize_satisfaction r2))%nat.
Proof.
  destruct r1 as [q1| | |], r2 as [q2| | |]; simpl; intros H; try discriminate;
    try (apply segment_rank_le_3); try (cbn; lia).
  apply Qle_bool_iff in H. unfold categorize_satisfaction.
  destruct (num_ge (Fin q1) (Fin 8)) eqn:A8;
    [apply num_ge_fin in A8 | apply num_ge_fin_false in A8];
    (destruct (num_ge (Fin q1) (Fin 6)) eqn:A6;
     [apply num_ge_fin in A6 | apply num_ge_fin_false in A6]);
    (destruct (num_ge (Fin q1) (Fin 3)) eqn:A3;
     [apply num_ge_fin in A3 | apply num_ge_fin_false in A3]);
    (destruct (num_ge (Fin q2) (Fin 8)) eqn:B8;
     [apply num_ge_fin in B8 | apply num_ge_fin_false in B8]);
    (destruct (num_ge (Fin q2) (Fin 6)) eqn:B6;
     [apply num_ge_fin in B6 | apply num_ge_fin_false in B6]);
    (destruct (num_ge (Fin q2) (Fin 3)) eqn:B3;
     [apply num_ge_fin in B3 | apply num_ge_fin_false in B3]);
    cbn; try lia; exfalso; lra.
Qed.

(** A rating of 5 and a rating of 7.5 *)
Lemma categorize_satisfaction_monotone_witness :
  (segment_rank (categorize_satisfaction (Fin 5))
   <= segment_rank (categorize_satisfaction (Fin (15 # 2))))%nat.
Proof. exact (categorize_satisfaction_monotone (Fin 5) (Fin (15 # 2)) eq_refl). Defined.

Lemma happy_iff_ge_8 (r : number) :
  String.eqb (categorize_satisfaction r) "Happy (8-10)" = num_ge r (Fin 8).
Proof.
  unfold categorize_satisfaction.
  destruct (num_ge r (Fin 8)); [reflexivity|].
  destruct (num_ge r (Fin 6)); [reflexivity|].
  now destruct (num_ge r (Fin 3)).
Qed.

Lemma load_segments_derived (b : bool) (f : RawFrame) (df : DataFrame) :
  load_and_process b (Return f) = Some df -> segments_derived df.
Proof.
  unfold load_and_process.
  destruct (derive_all b (raw_rows f)) as [rs|e] eqn:E; [|discriminate].
  intros H. inversion H; subst. unfold segments_derived. simpl.
  apply derive_all_returns in E. clear H.
  induction E as [|raw r l rs Hr _ IH]; [constructor|].
  constructor; [|exact IH].
  destruct Hr as (_ & -> & _ & _ & _ & _ & _ & _ & _ & -> & _). reflexivity.
Qed.

Lemma select_segments_derived (mask : Review -> bool) (df : DataFrame) :
  segments_derived df -> segments_derived (select mask df).
Proof.
  unfold segments_derived. simpl. intros H.
  apply Forall_forall. intros r Hr. apply filter_In in Hr.
  now apply (proj1 (Forall_forall _ _) H).
Qed.

(** X8. In a table whose segments were derived by the loader, the rows
    rated 8 or more are the rows of the Happy segment; the rows rated 3 or
    less are not the Very Disappointed segment: each is Very Disappointed or
    is rated exactly 3 and Disappointed, and a Very Disappointed row is rated
    3 or less or has no rating at all. *)
Theorem passenger_groups_and_segments (df : DataFrame) :
  segments_derived df ->
  happy_passengers df = segment_rows "Happy (8-10)" df /\
  (forall r, In r (rows (frustrated_passengers df)) ->
     Satisfaction_Segment r = "Very Disappointed (1-2)" \/
     (Satisfaction_Segment r = "Disappointed (3-5)" /\
      exists q, Overall_Rating r = Fin q /\ (q == 3)%Q)) /\
  (forall r, In r (rows (segment_rows "Very Disappointed (1-2)" df)) ->
     In r (rows (frustrated_passengers df)) \/ Overall_Rating r = NaN).
Proof.
  intros D. unfold segments_derived in D. rewrite Forall_forall in D.
  split; [|split].
  - unfold happy_passengers, segment_rows, select. f_equal.
    apply filter_ext_in. intros r Hr. rewrite (D r Hr). symmetry. apply happy_iff_ge_8.
  - intros r Hr. simpl in Hr. apply filter_In in Hr. destruct Hr as [Hr H3].
    rewrite (D r Hr). unfold categorize_satisfaction.
    destruct (Overall_Rating r) as [q| | |]; simpl in H3; try discriminate.
    + apply Qle_bool_iff in H3.
      destruct (num_ge (Fin q) (Fin 8)) eqn:A8;
        [apply num_ge_fin in A8; lra|].
      destruct (num_ge (Fin q) (Fin 6)) eqn:A6;
        [apply num_ge_fin in A6; lra|].
      destruct (num_ge (Fin q) (Fin 3)) eqn:A3; [|now left].
      apply num_ge_fin in A3. right. split; [reflexivity|].
      exists q. split; [reflexivity | lra].
    + now left.
  - intros r Hr. simpl in Hr. apply filter_In in Hr. destruct Hr as [Hr Hs].
    rewrite (D r Hr) in Hs. apply String.eqb_eq in Hs.
    unfold categorize_satisfaction in Hs.
    destruct (Overall_Rating r) as [q| | |] eqn:E; [| | |now right].
    + left. simpl. apply filter_In. split; [exact Hr|]. rewrite E. simpl.
      apply Qle_bool_iff.
      destruct (num_ge (Fin q) (Fin 8)); [discriminate|].
      destruct (num_ge (Fin q) (Fin 6)); [discriminate|].
      destruct (num_ge (Fin q) (Fin 3)) eqn:A3; [discriminate|].
      apply num_ge_fin_false in A3. lra.
    + discriminate.
    + left. simpl. apply filter_In. split; [exact Hr|]. now rewrite E.
Qed.

(** The sample table: its happy rows are its Happy segment. *)
Lemma passenger_groups_and_segments_witness :
  happy_passengers sample_df = segment_rows "Happy (8-10)" sample_df.
Proof.
  refine (proj1 (passenger_groups_and_segments sample_df _)).
  exact (load_segments_derived true
           {| raw_has_Review_Date := true; raw_rows := [happy_review; angry_review] |}
           sample_df eq_refl).
Defined.

(** ** Value counts *)

Lemma sum_cons (x : Z) (l : list Z) : sum (x :: l) = (x + sum l)%Z.
Proof. unfold sum. simpl. rewrite sum_from. lia. Qed.

Lemma sum_perm (l l' : list Z) : Permutation l l' -> sum l = sum l'.
Proof.
  induction 1 as [|x l l' _ IH|x y l|l l' l'' _ IH1 _ IH2];
    rewrite ?sum_cons; try lia; congruence.
Qed.

Lemma sum_map_add {A : Type} (f g : A -> Z) (l : list A) :
  sum (map (fun a => f a + g a)%Z l) = (sum (map f l) + sum (map g l))%Z.
Proof.
  induction l as [|a l IH]; simpl; [reflexivity|]. rewrite !sum_cons, IH. lia.
Qed.

Lemma sum_indicator (a : string) (keys : list string) :
  NoDup keys ->
  sum (map (fun k => if string_dec a k then 1 else 0)%Z keys)
  = (if in_dec string_dec a keys then 1 else 0)%Z.
Proof.
  induction 1 as [|k keys Hk _ IH]; [reflexivity|].
  simpl map. rewrite sum_cons, IH.
  destruct (string_dec a k) as [->|Hak].
  - destruct (in_dec string_dec k keys); [contradiction|].
    destruct (in_dec string_dec k (k :: keys)) as [_|n']; [lia|].
    exfalso. apply n'. now left.
  - destruct (in_dec string_dec a keys) as [i|n'];
      destruct (in_dec string_dec a (k :: keys)) as [i'|n'']; try lia.
    + exfalso. apply n''. now right.
    + exfalso. destruct i' as [E|i']; [congruence | contradiction].
Qed.

(** Counting each value once covers every cell. *)
Lemma sum_occurrences (values keys : list string) :
  NoDup keys -> incl values keys ->
  sum (map (fun k => occurrences k values) keys) = Z.of_nat (List.length values).
Proof.
  intros Hk. induction values as [|a values IH]; intros Hin.
  - clear Hin. unfold occurrences. simpl.
    induction keys as [|k keys IHk]; [reflexivity|].
    simpl map. rewrite sum_cons, IHk; [reflexivity | now inversion Hk].
  - assert (E : forall k, occurrences k (a :: values)
                          = ((if string_dec a k then 1 else 0) + occurrences k values)%Z).
    { intros k. unfold occurrences. simpl.
      destruct (string_dec a k); lia. }
    rewrite (map_ext _ _ E), sum_map_add, sum_indicator by exact Hk.
    rewrite IH by (intros x Hx; apply Hin; now right).
    destruct (in_dec string_dec a keys) as [_|n'].
    + simpl List.length. lia.
    + exfalso. apply n', Hin. now left.
Qed.

Section ValueCountsFacts.
Context {vc : ValueCounts}.

Lemma value_counts_in (cells : list (option string)) (value : string) (n : Z) :
  In (value, n) (value_counts cells) <->
  In value (dropna cells) /\ n = occurrences value (dropna cells).
Proof.
  unfold value_counts. split.
  - intros H. apply (Permutation_in _ (vc_order_perm _)) in H.
    apply in_map_iff in H. destruct H as (k & E & Hk). inversion E; subst.
    apply nodup_In in Hk. now split.
  - intros [H ->]. apply (Permutation_in _ (Permutation_sym (vc_order_perm _))).
    apply in_map_iff. exists value. split; [reflexivity | now apply nodup_In].
Qed.

Lemma value_counts_names (cells : list (option string)) :
  Permutation (map fst (value_counts cells)) (nodup string_dec (dropna cells)).
Proof.
  unfold value_counts. eapply perm_trans; [apply Permutation_map, vc_order_perm|].
  rewrite map_map. simpl. rewrite map_id. apply Permutation_refl.
Qed.

Lemma value_counts_nodup (cells : list (option string)) :
  NoDup (map fst (value_counts cells)).
Proof.
  eapply Permutation_NoDup; [apply Permutation_sym, value_counts_names|].
  apply NoDup_nodup.
Qed.

Lemma value_counts_sum (cells : list (option string)) :
  sum (map snd (value_counts cells)) = Z.of_nat (List.length (dropna cells)).
Proof.
  unfold value_counts.
  rewrite (sum_perm _ _ (Permutation_map snd (vc_order_perm _))).
  rewrite map_map. simpl. apply sum_occurrences; [apply NoDup_nodup|].
  intros x Hx. now apply nodup_In.
Qed.

Lemma value_counts_positive (cells : list (option string)) (value : string) (n : Z) :
  In (value, n) (value_counts cells) -> (0 < n)%Z.
Proof.
  intros H. apply value_counts_in in H. destruct H as [H ->].
  unfold occurrences. apply (count_occ_In string_dec) in H. lia.
Qed.

End ValueCountsFacts.

Lemma occurrences_column (col : Review -> option string) (df : DataFrame) (value : string) :
  occurrences value (dropna (map col (rows df))) = group_size col df value.
Proof.
  unfold occurrences, group_size, group_rows. f_equal.
  induction (rows df) as [|r l IH]; [reflexivity|].
  simpl. destruct (col r) as [s|]; simpl; [|exact IH].
  destruct (string_dec s value) as [->|Hne].
  - rewrite String.eqb_refl. simpl. now rewrite IH.
  - destruct (String.eqb s value) eqn:E; [apply String.eqb_eq in E; contradiction|].
    exact IH.
Qed.

Lemma dropna_some {A : Type} (f : A -> string) (l : list A) :
  dropna (map (fun a => Some (f a)) l) = map f l.
Proof. induction l as [|a l IH]; simpl; [reflexivity | now rewrite IH]. Qed.

(** In a strongly sorted list every element of a head is related to every
    element of the rest. *)
Lemma StronglySorted_firstn {A : Type} (R : A -> A -> Prop) (n : nat) (l : list A) (x y : A) :
  StronglySorted R l -> In x (firstn n l) -> In y (skipn n l) -> R x y.
Proof.
  intros H. revert n. induction H as [|a l Hs IH Ha]; intros n Hx Hy.
  - now destruct n.
  - destruct n as [|n]; [contradiction|]. simpl in Hx, Hy.
    destruct Hx as [<-|Hx].
    + rewrite Forall_forall in Ha. apply Ha.
      rewrite <- (firstn_skipn n l). apply in_or_app. now right.
    + now apply (IH n).
Qed.

Section Volumes.
Context {vc : ValueCounts}.

(** X9. The segment counts of the overview add up to the number of rows of the
    table, rows without a rating included; every segment that occurs is
    listed once, with the number of its rows; and in a table whose segments
    were derived by the loader only the four labels occur, the Happy count
    being the number of rows rated 8 or more. *)
Theorem segment_dist_counts (df : DataFrame) :
  sum (map snd (segment_dist df)) = Z.of_nat (List.length (rows df)) /\
  NoDup (map fst (segment_dist df)) /\
  (forall label n,
      In (label, n) (segment_dist df) <->
      (0 < n)%Z /\ n = Z.of_nat (List.length (rows (segment_rows label df)))) /\
  (segments_derived df ->
   incl (map fst (segment_dist df)) segment_labels /\
   forall n, In ("Happy (8-10)", n) (segment_dist df) ->
             n = Z.of_nat (List.length (rows (happy_passengers df)))).
Proof.
  assert (Occ : forall label,
             occurrences label (map Satisfaction_Segment (rows df))
             = Z.of_nat (List.length (rows (segment_rows label df)))).
  { intros label. unfold occurrences. simpl. f_equal.
    induction (rows df) as [|r l IH]; [reflexivity|]. simpl.
    destruct (string_dec (Satisfaction_Segment r) label) as [->|Hne].
    - rewrite String.eqb_refl. simpl. now rewrite IH.
    - destruct (String.eqb (Satisfaction_Segment r) label) eqn:E;
        [apply String.eqb_eq in E; contradiction | exact IH]. }
  assert (In_iff : forall label n,
             In (label, n) (segment_dist df) <->
             (0 < n)%Z /\ n = Z.of_nat (List.length (rows (segment_rows label df)))).
  { intros label n. unfold segment_dist. rewrite value_counts_in, dropna_some, Occ.
    split.
    - intros [H ->]. split; [|reflexivity].
      rewrite <- Occ. unfold occurrences.
      apply (count_occ_In string_dec) in H. lia.
    - intros [Hpos ->]. split; [|reflexivity].
      rewrite <- Occ in Hpos. unfold occurrences in Hpos.
      apply (count_occ_In string_dec). lia. }
  split; [|split; [|split; [exact In_iff|]]].
  - unfold segment_dist. rewrite value_counts_sum, dropna_some. now rewrite length_map.
  - apply value_counts_nodup.
  - intros D. split.
    + intros label Hl. apply in_map_iff in Hl. destruct Hl as ([label' n] & <- & Hl).
      unfold segment_dist in Hl. apply value_counts_in in Hl. destruct Hl as [Hl _].
      rewrite dropna_some in Hl. apply in_map_iff in Hl. destruct Hl as (r & <- & Hr).
      unfold segments_derived in D. rewrite Forall_forall in D. simpl. rewrite (D r Hr).
      unfold categorize_satisfaction, segment_labels.
      destruct (num_ge _ (Fin 8)); [simpl; tauto|].
      destruct (num_ge _ (Fin 6)); [simpl; tauto|].
      destruct (num_ge _ (Fin 3)); simpl; tauto.
    + intros n Hn. apply In_iff in Hn. destruct Hn as [_ ->]. do 2 f_equal.
      unfold segment_rows, happy_passengers, select. simpl.
      apply filter_ext_in. intros r Hr.
      unfold segments_derived in D. rewrite Forall_forall in D. rewrite (D r Hr).
      apply happy_iff_ge_8.
Qed.

Lemma top_ten_of_value_counts (col : Review -> option string) (df : DataFrame) :
  top_ten_of col df (firstn 10 (value_counts (map col (rows df)))).
Proof.
  set (all := value_counts (map col (rows df))).
  assert (Sub : forall p, In p (firstn 10 all) -> In p all)
    by (intros p; apply In_firstn).
  split; [apply firstn_le_length|]. split; [|split].
  - assert (N : NoDup (map fst all)) by apply value_counts_nodup.
    rewrite <- (firstn_skipn 10 all), map_app in N.
    now apply NoDup_app_remove_r in N.
  - intros value n H. apply Sub in H. split.
    + apply value_counts_in in H. destruct H as [_ ->]. apply occurrences_column.
    + now apply value_counts_positive in H.
  - intros value Hpos Hout.
    assert (Hall : In (value, group_size col df value) all).
    { apply value_counts_in. rewrite occurrences_column. split; [|reflexivity].
      rewrite <- occurrences_column in Hpos. unfold occurrences in Hpos.
      apply (count_occ_In string_dec). lia. }
    assert (Hskip : In (value, group_size col df value) (skipn 10 all)).
    { rewrite <- (firstn_skipn 10 all) in Hall. apply in_app_or in Hall.
      destruct Hall as [Hall|Hall]; [|exact Hall].
      exfalso. apply Hout. apply in_map_iff. now exists (value, group_size col df value). }
    split.
    + destruct (Nat.le_gt_cases (List.length all) 10) as [Hle|Hgt].
      * rewrite skipn_all2 in Hskip by exact Hle. contradiction.
      * apply firstn_length_le. lia.
    + intros value' n' H'.
      apply (StronglySorted_firstn (ge_key snd) 10 all (value', n') _
               (vc_order_sorted _) H' Hskip).
Qed.

(** X10. The origin and destination charts of the basic dashboard list at
    most ten values, each once and with the number of its rows; rows without
    an origin (or destination) are not counted; and a value is left out only
    when ten are listed, none of them with fewer rows. *)
Theorem top_volumes (df : DataFrame) :
  top_ten_of Origin df (origin_volume df) /\
  top_ten_of Destination df (dest_volume df).
Proof. split; apply top_ten_of_value_counts. Qed.

End Volumes.

(** ** More on the theme extractor *)

Lemma lower_join (l : list string) :
  PyStr.lower (PyStr.join " " l) = PyStr.join " " (map PyStr.lower l).
Proof.
  unfold PyStr.join. induction l as [|x l IH]; [reflexivity|].
  destruct l as [|y l]; [reflexivity|].
  change (String.concat " " (x :: y :: l))
    with (x ++ " " ++ String.concat " " (y :: l))%string.
  rewrite !PyStrMore.lower_append, IH. reflexivity.
Qed.

(** X11. The theme counts do not depend on the case of the reviews: two
    tables whose selected texts agree once lowered get the same ranking.
    Every keyword of the two tables is in lower case, so none is out of reach
    of the lowered corpus. *)
Theorem extract_review_themes_case_insensitive :
  (forall (df1 df2 : DataFrame) (sentiment : string),
      map PyStr.lower (sentiment_reviews df1 sentiment)
      = map PyStr.lower (sentiment_reviews df2 sentiment) ->
      extract_review_themes df1 sentiment = extract_review_themes df2 sentiment) /\
  Forall (fun keyword => PyStr.lower keyword = keyword)
         (flat_map snd positive_themes ++ flat_map snd negative_themes).
Proof.
  split.
  - intros df1 df2 sentiment H. unfold extract_review_themes.
    now rewrite !lower_join, H.
  - repeat constructor.
Qed.

(** The sample table and the same table in capitals. *)
Lemma extract_review_themes_case_insensitive_witness :
  extract_review_themes shouting_df "positive"
  = extract_review_themes sample_df "positive".
Proof.
  exact (proj1 extract_review_themes_case_insensitive
           shouting_df sample_df "positive" eq_refl).
Defined.

Lemma extract_review_themes_seven (df : DataFrame) (sentiment : string) :
  exists a b c d e f g, extract_review_themes df sentiment = [a; b; c; d; e; f; g].
Proof.
  assert (L : List.length (extract_review_themes df sentiment) = 7%nat).
  { rewrite extract_review_themes_unfold.
    rewrite (Permutation_length (sorted_desc_perm snd _)), length_map.
    now destruct (String.eqb sentiment "positive"). }
  destruct (extract_review_themes df sentiment)
    as [|a [|b [|c [|d [|e [|f [|g [|h l]]]]]]]]; try discriminate.
  now exists a, b, c, d, e, f, g.
Qed.

(** X12. The advanced dashboard writes six themes for each sentiment,
    numbered 1 to 6 in the extractor's order; the seventh, the one it leaves
    out, has no more mentions than any theme it writes. *)
Theorem displayed_themes_top_six (df : DataFrame) (sentiment : string) :
  map fst (displayed_themes df sentiment) = [1; 2; 3; 4; 5; 6]%nat /\
  exists left_out,
    extract_review_themes df sentiment
    = map snd (displayed_themes df sentiment) ++ [left_out] /\
    Forall (fun p => (snd left_out <= snd (snd p))%Z) (displayed_themes df sentiment).
Proof.
  pose proof (sorted_desc_sorted snd
                (map (fun theme =>
                        (fst theme,
                         theme_count
                           (PyStr.lower (PyStr.join " " (sentiment_reviews df sentiment)))
                           (snd theme)))
                     (if String.eqb sentiment "positive"
                      then positive_themes else negative_themes))) as S.
  rewrite <- extract_review_themes_unfold in S.
  unfold displayed_themes.
  destruct (extract_review_themes_seven df sentiment)
    as (a & b & c & d & e & f & g & E).
  rewrite E in *. split; [reflexivity|].
  exists g. split; [reflexivity|].
  repeat match type of S with
         | StronglySorted _ (_ :: _) =>
             apply StronglySorted_inv in S;
             let F := fresh "F" in destruct S as [S F]
         end.
  repeat match goal with
         | F : Forall _ (_ :: _) |- _ => inversion F; subst; clear F
         | F : Forall _ [] |- _ => clear F
         end.
  unfold ge_key in *. simpl. repeat constructor; simpl; assumption.
Qed.

(** ** More on the filter stage *)

Lemma advanced_filters_select (ui : Sidebar) (df : DataFrame) :
  fst (Advanced.create_interactive_filters ui df) = select (matches ui) df.
Proof.
  unfold Advanced.create_interactive_filters, sbind, get, ret. simpl.
  rewrite apply_selectors_select, select_select. reflexivity.
Qed.

(** X13. Advanced filter stages compose as a conjunction: filtering a
    filtered table keeps the rows that satisfy both sets of selections, so
    the order of two filterings does not matter and filtering twice with the
    same selections is filtering once. *)
Theorem advanced_filters_compose (ui1 ui2 : Sidebar) (df : DataFrame) :
  let twice ui ui' :=
    fst (Advanced.create_interactive_filters ui'
           (fst (Advanced.create_interactive_filters ui df))) in
  twice ui1 ui2 = select (fun r => matches ui1 r && matches ui2 r) df /\
  twice ui1 ui2 = twice ui2 ui1 /\
  twice ui1 ui1 = fst (Advanced.create_interactive_filters ui1 df).
Proof.
  intros twice.
  assert (E : forall ui ui', twice ui ui'
                             = select (fun r => matches ui r && matches ui' r) df).
  { intros ui ui'. unfold twice. now rewrite !advanced_filters_select, select_select. }
  split; [apply E|]. split.
  - rewrite !E. unfold select. f_equal. apply filter_ext. intros r.
    apply Bool.andb_comm.
  - rewrite E, advanced_filters_select. unfold select. f_equal.
    apply filter_ext. intros r. now destruct (matches ui1 r).
Qed.

Section BasicMore.
Context {pd : Pandas}.

Lemma to_datetime_idem (c : date_cell) :
  Basic.to_datetime (Basic.to_datetime c) = Basic.to_datetime c.
Proof.
  destruct c as [s| |t|]; simpl; try reflexivity.
  now destruct (pd_to_datetime s).
Qed.

Lemma set_Review_Date_idem (r : Review) :
  Basic.set_Review_Date Basic.to_datetime (Basic.set_Review_Date Basic.to_datetime r)
  = Basic.set_Review_Date Basic.to_datetime r.
Proof. unfold Basic.set_Review_Date. simpl. now rewrite to_datetime_idem. Qed.

Lemma basic_filters_base_idem (ui ui' : Sidebar) (df : DataFrame) :
  snd (Basic.create_interactive_filters ui'
         (snd (Basic.create_interactive_filters ui df)))
  = snd (Basic.create_interactive_filters ui df).
Proof.
  rewrite !basic_filters_base.
  destruct (has_Review_Date df) eqn:E; simpl; rewrite ?E; [|reflexivity].
  unfold with_rows. simpl. f_equal. rewrite map_map.
  apply map_ext. intros r. apply set_Review_Date_idem.
Qed.

(** X14. The basic filter stage changes the base table at most once: after
    any sequence of filter operations, however long, the base table is what
    the first of them left. *)
Theorem basic_run_filters_base (ui : Sidebar) (uis : list Sidebar) (df : DataFrame) :
  snd (run_filters Basic.create_interactive_filters (ui :: uis) df)
  = snd (Basic.create_interactive_filters ui df).
Proof.
  revert ui df. induction uis as [|ui' uis IH]; intros ui df.
  - simpl. unfold sbind, ret.
    now destruct (Basic.create_interactive_filters ui df).
  - change (run_filters Basic.create_interactive_filters (ui :: ui' :: uis))
      with (sbind (Basic.create_interactive_filters ui)
              (fun filtered_df =>
                 sbind (run_filters Basic.create_interactive_filters (ui' :: uis))
                       (fun rest => ret (filtered_df :: rest)))).
    unfold sbind at 1.
    destruct (Basic.create_interactive_filters ui df) as [filtered df1] eqn:E1.
    unfold sbind at 1.
    destruct (run_filters Basic.create_interactive_filters (ui' :: uis) df1)
      as [rest df2] eqn:E2.
    unfold ret. simpl.
    assert (H2 : df2 = snd (run_filters Basic.create_interactive_filters (ui' :: uis) df1))
      by now rewrite E2.
    rewrite IH in H2.
    assert (H1 : df1 = snd (Basic.create_interactive_filters ui df))
      by now rewrite E1.
    rewrite H2, H1. apply basic_filters_base_idem.
Qed.

Lemma selectors_ignore_dates (ui : Sidebar) (f : date_cell -> date_cell) (r : Review) :
  (selector_ok (selected_airline ui) (Airline_Name (Basic.set_Review_Date f r)) &&
   selector_ok (selected_seat_class ui) (Seat_Type (Basic.set_Review_Date f r)) &&
   selector_ok (selected_traveler_type ui) (Type_Of_Traveller (Basic.set_Review_Date f r)))
  = (selector_ok (selected_airline ui) (Airline_Name r) &&
     selector_ok (selected_seat_class ui) (Seat_Type r) &&
     selector_ok (selected_traveler_type ui) (Type_Of_Traveller r)).
Proof. reflexivity. Qed.


End BasicMore.

(** ** Group keys and selector options *)

Lemma ascii_compare_refl (a : ascii) : Ascii.compare a a = Eq.
Proof. unfold Ascii.compare. apply N.compare_refl. Qed.

Lemma string_compare_refl (s : string) : String.compare s s = Eq.
Proof.
  induction s as [|c s IH]; simpl; [reflexivity|]. now rewrite ascii_compare_refl.
Qed.

Lemma string_lt_trans (a b c : string) :
  string_lt a b -> string_lt b c -> string_lt a c.
Proof.
  unfold string_lt. revert b c.
  induction a as [|x a IH]; intros [|y b] [|z c]; simpl; try discriminate; try reflexivity.
  destruct (Ascii.compare x y) eqn:Exy; try discriminate.
  - apply Ascii.compare_eq_iff in Exy. subst y.
    destruct (Ascii.compare x z); try discriminate; [apply IH | reflexivity].
  - intros _. destruct (Ascii.compare y z) eqn:Eyz; try discriminate.
    + apply Ascii.compare_eq_iff in Eyz. subst z. now rewrite Exy.
    + unfold Ascii.compare in *. rewrite N.compare_lt_iff in *.
      assert (Hxz : (N_of_ascii x < N_of_ascii z)%N) by lia.
      apply N.compare_lt_iff in Hxz. now rewrite Hxz.
Qed.

Lemma string_lt_irrefl (a : string) : ~ string_lt a a.
Proof. unfold string_lt. now rewrite string_compare_refl. Qed.

Lemma insert_key_in (k y : string) (l : list string) :
  In y (insert_key k l) <-> y = k \/ In y l.
Proof.
  induction l as [|x l IH]; simpl; [intuition|].
  destruct (String.compare k x) eqn:E; simpl.
  - apply String.compare_eq_iff in E. subst x. intuition.
  - intuition.
  - rewrite IH. intuition.
Qed.

Lemma insert_key_sorted (k : string) (l : list string) :
  StronglySorted string_lt l -> StronglySorted string_lt (insert_key k l).
Proof.
  induction 1 as [|x l Hs IH Hx]; simpl; [repeat constructor|].
  destruct (String.compare k x) eqn:E.
  - now constructor.
  - constructor; [now constructor|]. constructor; [exact E|].
    eapply Forall_impl; [|exact Hx]. intros y Hy. now apply (string_lt_trans k x y).
  - constructor; [exact IH|]. apply Forall_forall. intros y Hy.
    apply insert_key_in in Hy. destruct Hy as [->|Hy].
    + unfold string_lt. rewrite String.compare_antisym, E. reflexivity.
    + now apply (proj1 (Forall_forall _ _) Hx).
Qed.

Lemma group_keys_sorted (col : Review -> option string) (df : DataFrame) :
  StronglySorted string_lt (group_keys col df).
Proof.
  unfold group_keys. induction (rows df) as [|r l IH]; simpl; [constructor|].
  destruct (col r); [now apply insert_key_sorted | exact IH].
Qed.

Lemma group_keys_in (col : Review -> option string) (df : DataFrame) (k : string) :
  In k (group_keys col df) <-> exists r, In r (rows df) /\ col r = Some k.
Proof.
  unfold group_keys. induction (rows df) as [|r l IH]; simpl.
  - split; [tauto | intros (r & [] & _)].
  - destruct (col r) as [k'|] eqn:E.
    + rewrite insert_key_in, IH. split.
      * intros [->|(r' & Hr' & E')]; [exists r; auto | exists r'; auto].
      * intros (r' & [<-|Hr'] & E'); [left; congruence | right; eauto].
    + rewrite IH. split.
      * intros (r' & Hr' & E'). eauto.
      * intros (r' & [<-|Hr'] & E'); [congruence | eauto].
Qed.

Lemma sorted_nodup (l : list string) : StronglySorted string_lt l -> NoDup l.
Proof.
  induction 1 as [|x l Hs IH Hx]; constructor; [|exact IH].
  intros Hin. apply (proj1 (Forall_forall _ _) Hx) in Hin.
  now apply string_lt_irrefl in Hin.
Qed.

Lemma group_keys_nodup (col : Review -> option string) (df : DataFrame) :
  NoDup (group_keys col df).
Proof. apply sorted_nodup, group_keys_sorted. Qed.

Lemma cell_eqb_eq (c : option string) (k : string) : cell_eqb c k = true <-> c = Some k.
Proof.
  destruct c as [s|]; simpl; [|split; discriminate].
  rewrite String.eqb_eq. split; congruence.
Qed.

Section Options.
Context {pd : Pandas}.


End Options.

(** ** More on the grouped summary tables *)

Lemma groupby_names (col : Review -> option string) (df : DataFrame)
  (agg : string * list Review -> Summary) :
  (forall g, group (agg g) = fst g) ->
  map group (map agg (groupby col df)) = group_keys col df.
Proof.
  intros H. unfold groupby. rewrite !map_map. simpl.
  rewrite <- (map_id (group_keys col df)) at 2.
  apply map_ext. intros k. now rewrite H.
Qed.

Lemma NoDup_map_filter {A B : Type} (f : A -> B) (P : A -> bool) (l : list A) :
  NoDup (map f l) -> NoDup (map f (filter P l)).
Proof.
  induction l as [|a l IH]; simpl; [auto|]. intros H. inversion H; subst.
  destruct (P a); simpl; [|auto]. constructor; [|auto].
  intros Hin. apply in_map_iff in Hin. destruct Hin as (a' & E & Ha').
  apply filter_In in Ha'. destruct Ha' as [Ha' _].
  match goal with H' : ~ In (f a) (map f l) |- _ => apply H' end.
  rewrite <- E. now apply in_map.
Qed.

Lemma NoDup_firstn {A : Type} (n : nat) (l : list A) : NoDup l -> NoDup (firstn n l).
Proof.
  intros H. rewrite <- (firstn_skipn n l) in H. now apply NoDup_app_remove_r in H.
Qed.

Section KeptGroups.
Variables (agg : string * list Review -> Summary) (col : Review -> option string)
          (n : Z) (df : DataFrame).
Hypothesis agg_group : forall g, group (agg g) = fst g.
Hypothesis agg_count :
  forall g, Review_Count (agg g) = count_notna (map Overall_Rating (snd g)).

Lemma kept_count (s : Summary) :
  In s (min_sample n (map agg (groupby col df))) ->
  Review_Count s = rated_count col df (group s) /\ (n <= Review_Count s)%Z.
Proof.
  intros Hs. apply filter_In in Hs. destruct Hs as [Hs Hn].
  apply Z.leb_le in Hn. split; [|exact Hn].
  apply in_map_iff in Hs. destruct Hs as ([k g] & <- & Hg).
  unfold groupby in Hg. apply in_map_iff in Hg. destruct Hg as (k' & Hk & _).
  inversion Hk; subst. now rewrite agg_group, agg_count.
Qed.

Lemma kept_complete (g : string) :
  (1 <= n)%Z -> (n <= rated_count col df g)%Z ->
  In g (map group (min_sample n (map agg (groupby col df)))).
Proof.
  intros Hn Hg.
  assert (Hk : In g (group_keys col df)).
  { apply group_keys_in. unfold rated_count, count_notna in Hg.
    destruct (group_rows col df g) as [|r l] eqn:E; [simpl in Hg; lia|].
    assert (Hr : In r (group_rows col df g)) by (rewrite E; now left).
    apply filter_In in Hr. destruct Hr as [Hr Hc]. exists r. split; [exact Hr|].
    now apply cell_eqb_eq. }
  apply in_map_iff. exists (agg (g, group_rows col df g)).
  split; [apply agg_group|]. apply filter_In. split.
  - apply in_map. unfold groupby. apply in_map_iff. now exists g.
  - apply Z.leb_le. now rewrite agg_count.
Qed.

Lemma kept_nodup : NoDup (map group (min_sample n (map agg (groupby col df)))).
Proof.
  apply NoDup_map_filter. rewrite groupby_names by exact agg_group.
  apply group_keys_nodup.
Qed.

End KeptGroups.

Section ViewsMore.
Context {pd : Pandas}.

Lemma run_view_count (v : View) (df : DataFrame) (s : Summary) :
  In s (run_view v df) ->
  Review_Count s = rated_count (view_column v) df (group s) /\
  (view_threshold v <= Review_Count s)%Z.
Proof.
  destruct v; simpl; intros H;
    try apply In_firstn in H; apply In_sort_desc in H;
    (eapply kept_count; [| |exact H]; reflexivity).
Qed.

Lemma run_view_complete (v : View) (df : DataFrame) (g : string) :
  truncated v = false ->
  (view_threshold v <= rated_count (view_column v) df g)%Z ->
  In g (map group (run_view v df)).
Proof.
  destruct v; simpl; intros Hv H; try discriminate Hv;
    (eapply Permutation_in;
     [apply Permutation_map, Permutation_sym, pd_sort_desc_perm|]);
    (apply kept_complete; [reflexivity | reflexivity | lia | exact H]).
Qed.

Lemma run_view_nodup (v : View) (df : DataFrame) : NoDup (map group (run_view v df)).
Proof.
  destruct v; simpl;
    unfold advanced_origin_performance, advanced_dest_performance;
    rewrite <- ?firstn_map; try apply NoDup_firstn;
    (eapply Permutation_NoDup;
     [apply Permutation_map, Permutation_sym, pd_sort_desc_perm|]);
    apply kept_nodup; reflexivity.
Qed.

(** X17. In the four views that are shown whole, a group is in the output
    exactly when it has at least the threshold of rated rows: rows without a
    rating do not count towards it, so a group with enough rows can still be
    left out. *)
Theorem view_shows_rated_groups (v : View) (df : DataFrame) (g : string) :
  truncated v = false ->
  (In g (map group (run_view v df)) <->
   (view_threshold v <= rated_count (view_column v) df g)%Z).
Proof.
  intros Hv. split.
  - intros H. apply in_map_iff in H. destruct H as (s & <- & Hs).
    apply run_view_count in Hs. lia.
  - now apply run_view_complete.
Qed.

(** X18. In every view each group has one row at most, whose count is the
    number of rated rows of the group; the origin and destination views of
    the advanced dashboard have ten rows at most. *)
Theorem view_rows_distinct (v : View) (df : DataFrame) :
  NoDup (map group (run_view v df)) /\
  Forall (fun s => Review_Count s = rated_count (view_column v) df (group s))
         (run_view v df) /\
  (truncated v = true -> (List.length (run_view v df) <= 10)%nat).
Proof.
  split; [apply run_view_nodup|]. split.
  - apply Forall_forall. intros s Hs. now apply run_view_count in Hs.
  - destruct v; simpl; intros Hv; try discriminate Hv; apply firstn_le_length.
Qed.

Lemma iloc_nil {A : Type} (i : Z) : iloc (@nil A) i = Err IndexError.
Proof.
  unfold iloc. simpl. destruct (i <? 0)%Z eqn:E.
  - rewrite Z.add_0_r. apply Z.ltb_lt in E.
    destruct (0 <=? i)%Z eqn:E'; [apply Z.leb_le in E'; lia | reflexivity].
  - destruct (0 <=? i)%Z; simpl; [|reflexivity].
    destruct (i <? 0)%Z; [discriminate | reflexivity].
Qed.

Lemma iloc_first {A : Type} (a : A) (l : list A) : iloc (a :: l) 0 = Ok a.
Proof.
  unfold iloc. cbn [Z.ltb Z.compare].
  destruct ((0 <=? 0)%Z && (0 <? Z.of_nat (List.length (a :: l)))%Z) eqn:E.
  - reflexivity.
  - apply Bool.andb_false_iff in E. destruct E as [E|E]; [discriminate|].
    apply Z.ltb_ge in E. simpl List.length in E. lia.
Qed.

Lemma iloc_last {A : Type} (a : A) (l : list A) :
  exists b, iloc (a :: l) (-1) = Ok b /\ In b (a :: l).
Proof.
  unfold iloc. cbn [Z.ltb Z.compare].
  set (n := Z.of_nat (List.length (a :: l))).
  assert (Hn : (1 <= n)%Z) by (unfold n; simpl List.length; lia).
  destruct ((0 <=? -1 + n)%Z && (-1 + n <? n)%Z) eqn:E.
  - destruct (nth_error (a :: l) (Z.to_nat (-1 + n))) as [b|] eqn:Eb.
    + exists b. split; [reflexivity|]. now apply nth_error_In in Eb.
    + apply nth_error_None in Eb. unfold n in *. lia.
  - apply Bool.andb_false_iff in E. destruct E as [E|E].
    + apply Z.leb_gt in E. lia.
    + apply Z.ltb_ge in E. lia.
Qed.


End ViewsMore.

(** The airline with twenty rated rows is in the basic airline view. *)
Lemma view_shows_rated_groups_witness :
  In "Zenith" (map group (@run_view exact_pandas BasicAirlineMetrics two_airlines_df)).
Proof.
  refine (proj2 (@view_shows_rated_groups exact_pandas BasicAirlineMetrics
                   two_airlines_df "Zenith" eq_refl) _).
  vm_compute. discriminate.
Defined.

(** Twenty rows, nineteen of them rated: the airline is left out. *)
Example one_unrated_left_out :
  group_size Airline_Name one_unrated_df "Acme" = 20%Z /\
  @run_view exact_pandas BasicAirlineMetrics one_unrated_df = [].
Proof. vm_compute. split; reflexivity. Qed.

(** ** The launcher and the deployment helper *)

Module ScriptFacts.
Import Scripts.

Ltac script_simpl :=
  cbv beta iota zeta delta
    [Launch.main Launch.install_requirements Launch.launch_dashboard
     Launch.check_file_exists Launch.streamlit_argv Launch.pip_requirements_argv
     Launch.pip_core_argv Launch.executable Launch.pip_requirements Launch.pip_core
     Launch.reply_install Launch.reply_launch
     Deploy.main Deploy.main_with_repo Deploy.check_required_files
     Deploy.missing_files Deploy.required_files Deploy.ready
     Deploy.check_git_installed Deploy.check_git_repo Deploy.initialize_git_repo
     Deploy.create_gitignore Deploy.commit_files Deploy.show_deployment_instructions
     Deploy.git_version Deploy.git_init Deploy.git_branch Deploy.git_add
     Deploy.git_commit Deploy.reply_init Deploy.reply_commit
     try_except run_checked input emit write_file path_exists andthen pure start
     files trace fst snd negb andb orb app forallb
     is_called_process_error is_file_not_found] in *.

Ltac on b := destruct b eqn:?; script_simpl.

Ltac event_facts :=
  repeat split; intros;
  repeat match goal with
         | H : In _ (_ :: _) |- _ => destruct H as [H|H]
         | H : In _ [] |- _ => destruct H
         | H : Forall _ (_ :: _) |- _ => inversion H; subst; clear H
         | H : ?a = ?a -> _ |- _ => specialize (H eq_refl)
         | H : _ /\ _ |- _ => destruct H
         | H : _ \/ _ |- _ => destruct H
         end;
  subst; try discriminate; try congruence; simpl; auto 10;
  try (repeat constructor; assumption).

(** X20. What the launcher starts. It starts the dashboard exactly when the
    data file and the dashboard file are there, the user answers the launch
    question with y or yes (in any case, spaces around it), and the
    installation has not ended in an exception nothing catches, which happens
    only when both pip runs cannot be started; a failed installation does not
    stand in the way. It runs pip only when asked to, the core packages only
    when the first run could not be started; with a file missing it starts
    and asks nothing; and it never writes a file. *)
Theorem launch_main_runs (env : Launch.Env) (fs : FileSystem) :
  let result := Launch.main env (start fs) in
  let started := trace (snd result) in
  let both :=
    fs_exists fs "Airline Review.csv" && fs_exists fs "advanced_airline_dashboard.py" in
  let crash :=
    yes (Launch.reply_install env)
    && is_file_not_found (Launch.pip_requirements env)
    && is_file_not_found (Launch.pip_core env) in
  (In (Run (Launch.streamlit_argv env)) started <->
   both = true /\ crash = false /\ yes (Launch.reply_launch env) = true) /\
  (In (Run (Launch.pip_requirements_argv env)) started <->
   both = true /\ yes (Launch.reply_install env) = true) /\
  (In (Run (Launch.pip_core_argv env)) started <->
   both = true /\ yes (Launch.reply_install env) = true /\
   Launch.pip_requirements env = FileNotFoundError) /\
  (both = false -> started = []) /\
  (fst result = Uncaught FileNotFoundError <-> both = true /\ crash = true) /\
  files (snd result) = fs.
Proof.
  destruct env as [exe req core r_install r_launch]. script_simpl.
  on (fs_exists fs "Airline Review.csv"); [|event_facts].
  on (fs_exists fs "advanced_airline_dashboard.py"); [|event_facts].
  on (yes r_install); on (yes r_launch); destruct req; destruct core;
    script_simpl; event_facts.
Qed.

(** X21. What the deployment helper starts. It runs [git init] exactly when
    the three required files are there, git answers, there is no [.git] and
    the user agrees; it runs [git add] exactly when deployment is ready (the
    files, git, and a repository found or created) and the user agrees to
    commit, and [git commit] only after a [git add] that succeeded; it shows
    the deployment instructions exactly when deployment is ready and no git
    program failed to start, a commit that failed included. *)
Theorem deploy_main_runs (env : Deploy.Env) (fs : FileSystem) :
  let result := Deploy.main env (start fs) in
  let started := trace (snd result) in
  let files_ok := forallb (fs_exists fs) Deploy.required_files in
  (In (Run ["git"; "init"]) started <->
   files_ok = true /\ Deploy.git_version env = Completed /\
   fs_exists fs ".git" = false /\ yes (Deploy.reply_init env) = true) /\
  (In (Run ["git"; "add"; "."]) started <->
   Deploy.ready env fs /\ yes (Deploy.reply_commit env) = true) /\
  (In (Run ["git"; "commit"; "-m"; "Initial airline dashboard commit"]) started ->
   In (Run ["git"; "add"; "."]) started /\ Deploy.git_add env = Completed) /\
  (In ShowInstructions started <->
   Deploy.ready env fs /\
   (yes (Deploy.reply_commit env) = true ->
    Deploy.git_add env <> FileNotFoundError /\
    (Deploy.git_add env = Completed -> Deploy.git_commit env <> FileNotFoundError))).
Proof.
  destruct env as [ver ini bra add com r_init r_commit]. script_simpl.
  on (fs_exists fs "advanced_airline_dashboard.py");
    on (fs_exists fs "Airline Review.csv");
    on (fs_exists fs "requirements_advanced.txt");
    try (event_facts; fail).
  destruct ver; script_simpl; try (event_facts; fail).
  on (fs_exists fs ".git").
  - on (fs_exists fs ".gitignore"); on (yes r_commit);
      destruct add; destruct com; script_simpl; event_facts.
  - on (yes r_init); [|event_facts].
    destruct ini; script_simpl; try (event_facts; fail).
    destruct bra; script_simpl; try (event_facts; fail).
    on (fs_exists fs ".gitignore"); on (yes r_commit);
      destruct add; destruct com; script_simpl; event_facts.
Qed.

Ltac file_facts :=
  repeat split; intros;
  repeat match goal with
         | H : In _ (_ :: _) |- _ => destruct H as [H|H]
         | H : In _ [] |- _ => destruct H
         | H : Write _ _ = Write _ _ |- _ => inversion H; subst; clear H
         end;
  try discriminate; try congruence; try reflexivity;
  unfold fs_write, fs_exists in *;
  try match goal with
      | H : ?p <> ".gitignore" |- _ =>
          apply String.eqb_neq in H; rewrite H
      end;
  try rewrite String.eqb_refl; try reflexivity; try congruence; auto.

Lemma fs_exists_write (fs : FileSystem) (path content : string) :
  fs_exists (fs_write fs path content) path = true.
Proof. unfold fs_exists, fs_write. now rewrite String.eqb_refl. Qed.

Lemma create_gitignore_once (w : World) :
  let once := snd (Deploy.create_gitignore w) in
  snd (Deploy.create_gitignore once) = once /\
  fs_exists (files once) ".gitignore" = true.
Proof.
  destruct w as [fs0 tr0].
  unfold Deploy.create_gitignore, andthen, path_exists, write_file, pure. simpl.
  destruct (fs_exists fs0 ".gitignore") eqn:E; simpl.
  - rewrite E. simpl. now split.
  - rewrite fs_exists_write. simpl. now split.
Qed.

(** X22. The deployment helper writes no file but [.gitignore], at most
    once, with its fixed text, and only when there is none: a [.gitignore]
    that is there is kept as it is, and every other path is left as it was.
    Whenever the instructions are shown a [.gitignore] is there. Creating it
    a second time changes nothing. *)
Theorem deploy_keeps_gitignore (env : Deploy.Env) (fs : FileSystem) :
  let result := Deploy.main env (start fs) in
  let after := files (snd result) in
  (forall path, path <> ".gitignore" -> after path = fs path) /\
  (fs_exists fs ".gitignore" = true -> after ".gitignore" = fs ".gitignore") /\
  (forall path content,
      In (Write path content) (trace (snd result)) ->
      path = ".gitignore" /\ content = Deploy.gitignore_content /\
      fs_exists fs ".gitignore" = false) /\
  (In ShowInstructions (trace (snd result)) -> fs_exists after ".gitignore" = true) /\
  (forall w : World,
      let once := snd (Deploy.create_gitignore w) in
      snd (Deploy.create_gitignore once) = once /\
      fs_exists (files once) ".gitignore" = true).
Proof.
  destruct env as [ver ini bra add com r_init r_commit].
  split; [|split; [|split; [|split]]].
  5: { apply create_gitignore_once. }
  all: script_simpl; on (fs_exists fs "advanced_airline_dashboard.py");
    on (fs_exists fs "Airline Review.csv");
    on (fs_exists fs "requirements_advanced.txt");
    try (file_facts; fail);
    destruct ver; script_simpl; try (file_facts; fail);
    on (fs_exists fs ".git");
    [ on (fs_exists fs ".gitignore"); on (yes r_commit);
        destruct add; destruct com; script_simpl; file_facts
    | on (yes r_init); [|file_facts];
      destruct ini; script_simpl; try (file_facts; fail);
      destruct bra; script_simpl; try (file_facts; fail);
      on (fs_exists fs ".gitignore"); on (yes r_commit);
        destruct add; destruct com; script_simpl; file_facts ].
Qed.

Example deploy_fresh_checkout :
  trace (snd (Deploy.main agreeable (start fresh_checkout)))
  = [Run ["git"; "--version"]; Input AskInitRepo; Run ["git"; "init"];
     Run ["git"; "branch"; "-M"; "main"];
     Write ".gitignore" Deploy.gitignore_content; Input AskCommit;
     Run ["git"; "add"; "."];
     Run ["git"; "commit"; "-m"; "Initial airline dashboard commit"];
     ShowInstructions].
Proof. reflexivity. Qed.

End ScriptFacts.

(** ** Review lengths *)

Lemma derive_with_length (raw : RawReview) :
  derive true raw =
    match derive false raw with
    | Return r => Return (set_Review_Length r)
    | Raise e => Raise e
    end.
Proof.
  unfold derive. now destruct (parse_route (raw_Route raw)) as [[[o d] v]|e].
Qed.

Lemma derive_all_with_length (l : list RawReview) :
  derive_all true l =
    match derive_all false l with
    | Return rs => Return (map set_Review_Length rs)
    | Raise e => Raise e
    end.
Proof.
  induction l as [|raw l IH]; [reflexivity|].
  simpl. rewrite derive_with_length, IH.
  destruct (derive false raw) as [r|e]; [|reflexivity]. simpl.
  now destruct (derive_all false l).
Qed.

(** X23. The two dashboards measure reviews alike: the length column the
    basic dashboard adds in its themes section to a table it loaded is the
    one the advanced dashboard computes when loading the same file, so the
    tables end up equal; adding the column again changes nothing; and a
    missing review measures 0. *)
Theorem review_length_agrees (csv : result RawFrame) :
  option_map add_review_length (load_and_process false csv) = load_and_process true csv /\
  (forall df, add_review_length (add_review_length df) = add_review_length df) /\
  (forall df r, In r (rows (add_review_length df)) ->
                Review_text r = None -> Review_Length r = Some 0%nat).
Proof.
  split; [|split].
  - unfold load_and_process. destruct csv as [f|e]; [|reflexivity].
    rewrite derive_all_with_length.
    now destruct (derive_all false (raw_rows f)).
  - intros df. unfold add_review_length, with_rows. simpl. f_equal.
    rewrite map_map. now apply map_ext.
  - intros df r Hr Ht. simpl in Hr. apply in_map_iff in Hr.
    destruct Hr as (r0 & <- & _). simpl in *. now rewrite Ht.
Qed.
